(** * WhiteNoise: static file catalogue and conditional responses

    A shallow embedding of [whitenoise/base.py]: the [Redirect] and
    [StaticFile] entries, the [WhiteNoise] dispatcher and its catalogue
    build, followed by the properties of the catalogue and of the
    per-request decisions.

    Conventions.  Python [str] values are 8-bit [string]s; Python [int]s are
    [Z]; a [dict] is a [gmap]; a raised exception is the [Raise] branch of
    [result].  File modification times are whole seconds. *)

From Stdlib Require Import ZArith Ascii DecimalString Lia.
From stdpp Require Import base option gmap strings list.

Local Open Scope Z_scope.

(** ** Exceptions and results *)

(** [OSError] is what [os.stat] raises, [IOError] what [open] raises: two
    classes on Python 2, two names of one class on Python 3. *)
Inductive exn :=
  | KeyError (key : string)
  | TypeError
  | AttributeError
  | OSError (path : string)
  | IOError (path : string).

Inductive result (A : Type) :=
  | Ok (a : A)
  | Raise (e : exn).
Arguments Ok {A} a.
Arguments Raise {A} e.

Global Instance result_ret : MRet result := fun A => @Ok A.
Global Instance result_bind : MBind result := fun A B k m =>
  match m with
  | Ok a => k a
  | Raise e => Raise e
  end.

Global Instance result_fmap : FMap result := fun A B f m =>
  match m with
  | Ok a => Ok (f a)
  | Raise e => Raise e
  end.

(** ** Python string operations used by the source *)

Module Py.

Definition dquote : string := String (ascii_of_nat 34) EmptyString.

Definition truthy (s : string) : bool :=
  match s with EmptyString => false | _ => true end.

Definition lower_char (c : ascii) : ascii :=
  let n := nat_of_ascii c in
  if ((65 <=? n) && (n <=? 90))%nat then ascii_of_nat (n + 32) else c.

Fixpoint lower (s : string) : string :=
  match s with
  | EmptyString => EmptyString
  | String c r => String (lower_char c) (lower r)
  end.

Fixpoint take (n : nat) (s : string) : string :=
  match n, s with
  | O, _ => EmptyString
  | S n', String c r => String c (take n' r)
  | S _, EmptyString => EmptyString
  end.

Fixpoint drop (n : nat) (s : string) : string :=
  match n, s with
  | O, _ => s
  | S n', String _ r => drop n' r
  | S _, EmptyString => EmptyString
  end.

Definition len (s : string) : Z := Z.of_nat (String.length s).

(** [s[:k]]: a negative stop counts from the end and is clamped at 0. *)
Definition slice_to (s : string) (k : Z) : string :=
  if k <? 0 then take (Z.to_nat (Z.max 0 (len s + k))) s
  else take (Z.to_nat k) s.

(** [s[k:]] for a stop-less slice with a non-negative start. *)
Definition slice_from (s : string) (k : nat) : string := drop k s.

Definition startswith (s p : string) : bool := String.prefix p s.

Definition endswith (s suf : string) : bool :=
  (String.length suf <=? String.length s)%nat
  && String.eqb (drop (String.length s - String.length suf) s) suf.

Fixpoint lstrip (c : ascii) (s : string) : string :=
  match s with
  | String d r => if Ascii.eqb c d then lstrip c r else s
  | EmptyString => EmptyString
  end.

(** [s.strip(c)] for a one-character argument. *)
Definition strip (c : ascii) (s : string) : string :=
  String.rev (lstrip c (String.rev (lstrip c s))).

(** [s.replace(old, new)] for one-character [old] and [new]. *)
Fixpoint replace (old new : ascii) (s : string) : string :=
  match s with
  | EmptyString => EmptyString
  | String d r => String (if Ascii.eqb d old then new else d) (replace old new r)
  end.

(** [str(n)] and ['%s' % n] for an integer. *)
Definition str (n : Z) : string := NilZero.string_of_int (Z.to_int n).

Fixpoint join (sep : string) (parts : list string) : string :=
  match parts with
  | [] => EmptyString
  | [p] => p
  | p :: ps => p +:+ sep +:+ join sep ps
  end.

Definition is_space (c : ascii) : bool :=
  let n := nat_of_ascii c in
  ((9 <=? n) && (n <=? 13) || (28 <=? n) && (n <=? 32))%nat.

Definition is_digit (c : ascii) : bool :=
  let n := nat_of_ascii c in ((48 <=? n) && (n <=? 57))%nat.

(** [\w] of the [re] module on ASCII: letters, digits and underscore.  A
    character above 127 is not a word character here, as for a byte pattern;
    Python 3 reads some of them as letters. *)
Definition is_word (c : ascii) : bool :=
  let n := nat_of_ascii c in
  ((48 <=? n) && (n <=? 57) || (65 <=? n) && (n <=? 90)
   || (97 <=? n) && (n <=? 122) || (n =? 95))%nat.

(** [s.split()]: maximal runs of non-blank characters. *)
Fixpoint split_go (cur : option string) (s : string) : list string :=
  match s with
  | EmptyString => option_list (String.rev <$> cur)
  | String c r =>
      if is_space c then option_list (String.rev <$> cur) ++ split_go None r
      else split_go (Some (String c (default EmptyString cur))) r
  end.
Definition split (s : string) : list string := split_go None s.

(** [s.split(c)] for a one-character separator: empty pieces are kept. *)
Fixpoint split_on_go (c : ascii) (cur : string) (s : string) : list string :=
  match s with
  | EmptyString => [String.rev cur]
  | String d r =>
      if Ascii.eqb d c then String.rev cur :: split_on_go c EmptyString r
      else split_on_go c (String d cur) r
  end.
Definition split_on (c : ascii) (s : string) : list string :=
  split_on_go c EmptyString s.

(** [s.find(c)] as an option: [None] stands for -1. *)
Fixpoint find (c : ascii) (s : string) : option nat :=
  match s with
  | EmptyString => None
  | String d r => if Ascii.eqb d c then Some O else S <$> find c r
  end.

Fixpoint rfind (c : ascii) (s : string) : option nat :=
  match s with
  | EmptyString => None
  | String d r =>
      match rfind c r with
      | Some i => Some (S i)
      | None => if Ascii.eqb d c then Some O else None
      end
  end.

Definition head (s : string) : option ascii :=
  match s with EmptyString => None | String c _ => Some c end.

Fixpoint digits_go (acc : Z) (s : string) : option Z :=
  match s with
  | EmptyString => Some acc
  | String c r =>
      if is_digit c then digits_go (10 * acc + Z.of_nat (nat_of_ascii c - 48)) r
      else None
  end.

(** [int(s)] on an optional sign followed by decimal digits;
    [None] stands for [ValueError]. *)
Definition int (s : string) : option Z :=
  match s with
  | EmptyString => None
  | String c r =>
      if Ascii.eqb c "-" then
        (if truthy r then Z.opp <$> digits_go 0 r else None)
      else if Ascii.eqb c "+" then
        (if truthy r then digits_go 0 r else None)
      else digits_go 0 s
  end.

(** ['%02d' % n] and ['%04d' % n] for a non-negative [n]. *)
Definition zfill (width : nat) (n : Z) : string :=
  let s := str n in
  String.concat EmptyString (replicate (width - String.length s) "0") +:+ s.

End Py.

(** ** Time tuples

    [time.struct_time] and the tuple [email.utils.parsedate] returns are both
    nine-field sequences; Python compares them field by field. *)

Record time_tuple := TimeTuple {
  tm_year : Z; tm_mon : Z; tm_mday : Z;
  tm_hour : Z; tm_min : Z; tm_sec : Z;
  tm_wday : Z; tm_yday : Z; tm_isdst : Z
}.

Definition tm_fields (t : time_tuple) : list Z :=
  [tm_year t; tm_mon t; tm_mday t; tm_hour t; tm_min t; tm_sec t;
   tm_wday t; tm_yday t; tm_isdst t].

(** The calendar part of a time tuple: year, month, day, hour, minute, second. *)
Definition tm_date (t : time_tuple) : list Z :=
  [tm_year t; tm_mon t; tm_mday t; tm_hour t; tm_min t; tm_sec t].

(** [a >= b] on sequences of integers: the first differing position decides,
    a proper prefix is smaller. *)
Fixpoint seq_ge (a b : list Z) : bool :=
  match a, b with
  | _, [] => true
  | [], _ :: _ => false
  | x :: a', y :: b' => if x =? y then seq_ge a' b' else y <? x
  end.

Fixpoint seq_lt (a b : list Z) : bool :=
  match a, b with
  | _, [] => false
  | [], _ :: _ => true
  | x :: a', y :: b' => if x =? y then seq_lt a' b' else x <? y
  end.

Definition tuple_ge (a b : time_tuple) : bool := seq_ge (tm_fields a) (tm_fields b).

(** The two releases of the language the module is written for differ on
    ordering [None] against a tuple. *)
Inductive py_version := Py2 | Py3.

(** [a >= b] where [a] is what [parsedate] returned.  Python 2 orders [None]
    below every other object; Python 3 raises [TypeError]. *)
Definition parsed_ge (pv : py_version) (a : option time_tuple) (b : time_tuple)
  : result bool :=
  match a with
  | Some t => Ok (tuple_ge t b)
  | None => match pv with Py2 => Ok false | Py3 => Raise TypeError end
  end.

(** The standard library's time functions the module imports:
    [time.gmtime], [email.utils.formatdate(_, usegmt=True)] and
    [email.utils.parsedate].  [gmtime] and [formatdate] are taken on the
    modification times they accept, the ones of the years 1 to 9999; for a
    time outside that range the library raises, and [StaticFile.__init__]
    with it, which the definitions below do not follow. *)
Class TimeLib := {
  gmtime : Z -> time_tuple;
  formatdate : Z -> string;
  parsedate : string -> option time_tuple
}.

(** The documented shape of their results: [gmtime] never reports daylight
    saving and counts week days from 0 and year days from 1; the last three
    fields of a parsed date are the placeholders 0, 1 and -1. *)
Record documented_shape (T : TimeLib) : Prop := {
  gmtime_wday : forall t, 0 <= tm_wday (gmtime t);
  gmtime_yday : forall t, 1 <= tm_yday (gmtime t);
  gmtime_isdst : forall t, tm_isdst (gmtime t) = 0;
  parsedate_unusable : forall s t, parsedate s = Some t ->
    tm_wday t = 0 /\ tm_yday t = 1 /\ tm_isdst t = -1
}.

(** *** A reference implementation of the time functions *)

Module RefTime.

(** Civil date of a day count since 1970-01-01 (proleptic Gregorian). *)
Definition civil_from_days (days : Z) : Z * Z * Z :=
  let z := days + 719468 in
  let era := z / 146097 in
  let doe := z - era * 146097 in
  let yoe := (doe - doe / 1460 + doe / 36524 - doe / 146096) / 365 in
  let doy := doe - (365 * yoe + yoe / 4 - yoe / 100) in
  let mp := (5 * doy + 2) / 153 in
  let d := doy - (153 * mp + 2) / 5 + 1 in
  let m := if mp <? 10 then mp + 3 else mp - 9 in
  let y := yoe + era * 400 + (if m <=? 2 then 1 else 0) in
  (y, m, d).

Definition is_leap (y : Z) : bool :=
  ((y mod 4 =? 0) && negb (y mod 100 =? 0)) || (y mod 400 =? 0).

Definition days_before_month (m : Z) : Z :=
  nth (Z.to_nat (m - 1)) [0; 31; 59; 90; 120; 151; 181; 212; 243; 273; 304; 334] 0.

Definition gmtime (t : Z) : time_tuple :=
  let days := t / 86400 in
  let rem := t mod 86400 in
  let '(y, m, d) := civil_from_days days in
  {| tm_year := y; tm_mon := m; tm_mday := d;
     tm_hour := rem / 3600; tm_min := rem mod 3600 / 60; tm_sec := rem mod 60;
     tm_wday := (days + 3) mod 7;
     tm_yday := days_before_month m
                + (if is_leap y && (2 <? m) then 1 else 0) + d;
     tm_isdst := 0 |}.

Definition daynames : list string :=
  ["mon"; "tue"; "wed"; "thu"; "fri"; "sat"; "sun"].
Definition monthnames : list string :=
  ["jan"; "feb"; "mar"; "apr"; "may"; "jun"; "jul"; "aug"; "sep"; "oct";
   "nov"; "dec"; "january"; "february"; "march"; "april"; "may"; "june";
   "july"; "august"; "september"; "october"; "november"; "december"].

Definition Daynames : list string :=
  ["Mon"; "Tue"; "Wed"; "Thu"; "Fri"; "Sat"; "Sun"].
Definition Monthnames : list string :=
  ["Jan"; "Feb"; "Mar"; "Apr"; "May"; "Jun"; "Jul"; "Aug"; "Sep"; "Oct";
   "Nov"; "Dec"].

(** ['%s, %02d %s %04d %02d:%02d:%02d GMT'] over the fields of [gmtime]. *)
Definition formatdate (t : Z) : string :=
  let now := gmtime t in
  nth (Z.to_nat (tm_wday now)) Daynames EmptyString +:+ ", "
  +:+ Py.zfill 2 (tm_mday now) +:+ " "
  +:+ nth (Z.to_nat (tm_mon now - 1)) Monthnames EmptyString +:+ " "
  +:+ Py.zfill 4 (tm_year now) +:+ " "
  +:+ Py.zfill 2 (tm_hour now) +:+ ":" +:+ Py.zfill 2 (tm_min now) +:+ ":"
  +:+ Py.zfill 2 (tm_sec now) +:+ " GMT".

(** [email.utils.parsedate], after the library's [_parsedate_tz]: an
    optional day name, then day, month, year and time in the RFC 2822,
    RFC 850 or asctime arrangement; the zone is read but does not enter the
    result.  A field that is empty after splitting is rejected. *)

Definition index_of (x : string) (l : list string) : option nat :=
  fst <$> list_find (fun y => String.eqb x y = true) l.

Definition chop_comma (s : string) : string :=
  if Py.endswith s "," then Py.slice_to s (-1) else s.

Definition skip_dayname (data : list string) : list string :=
  match data with
  | [] => []
  | d0 :: rest =>
      if Py.endswith d0 "," || bool_decide (Py.lower d0 ∈ daynames) then rest
      else match Py.rfind "," d0 with
           | Some i => Py.slice_from d0 (S i) :: rest
           | None => data
           end
  end.

Definition rfc850 (data : list string) : list string :=
  match data with
  | [d0; d1; d2] =>
      match Py.split_on "-" d0 with
      | [a; b; c] => [a; b; c; d1; d2]
      | _ => data
      end
  | _ => data
  end.

Definition split_zone (data : list string) : list string :=
  match data with
  | [d0; d1; d2; s] =>
      let i := match Py.find "+" s with Some i => Some i | None => Py.find "-" s end in
      match i with
      | Some (S i') => [d0; d1; d2; Py.take (S i') s; Py.drop (S i') s]
      | _ => [d0; d1; d2; s; EmptyString]
      end
  | _ => data
  end.

Definition split_time (tm : string) : option (string * string * string) :=
  match Py.split_on ":" tm with
  | [thh; tmm] => Some (thh, tmm, "0")
  | [thh; tmm; tss] => Some (thh, tmm, tss)
  | [t0] =>
      match Py.split_on "." t0 with
      | [thh; tmm] => Some (thh, tmm, "0")
      | [thh; tmm; tss] => Some (thh, tmm, tss)
      | _ => None
      end
  | _ => None
  end.

Definition full_year (yy : Z) : Z :=
  if yy <? 100 then (if 68 <? yy then yy + 1900 else yy + 2000) else yy.

Definition parse_fields (dd mm yy tm tz : string) : option time_tuple :=
  if negb (Py.truthy dd && Py.truthy mm && Py.truthy yy && Py.truthy tm) then None
  else
    let mm := Py.lower mm in
    '(dd, mm) ← (if bool_decide (mm ∈ monthnames) then Some (dd, mm)
                  else if bool_decide (Py.lower dd ∈ monthnames)
                       then Some (mm, Py.lower dd) else None);
    if negb (Py.truthy dd) then None else
    m ← index_of mm monthnames;
    let mon := Z.of_nat m + 1 in
    let mon := if 12 <? mon then mon - 12 else mon in
    let dd := chop_comma dd in
    let '(yy, tm) := match Py.find ":" yy with
                     | Some (S _) => (tm, yy)
                     | _ => (yy, tm)
                     end in
    let yy := chop_comma yy in
    if negb (Py.truthy yy) then None else
    let yy := if from_option Py.is_digit false (Py.head yy) then yy else tz in
    let tm := chop_comma tm in
    '(thh, tmm, tss) ← split_time tm;
    y ← Py.int yy; d ← Py.int dd;
    h ← Py.int thh; mi ← Py.int tmm; s ← Py.int tss;
    Some {| tm_year := full_year y; tm_mon := mon; tm_mday := d;
            tm_hour := h; tm_min := mi; tm_sec := s;
            tm_wday := 0; tm_yday := 1; tm_isdst := -1 |}.

Definition parsedate (data : string) : option time_tuple :=
  match split_zone (rfc850 (skip_dayname (Py.split data))) with
  | dd :: mm :: yy :: tm :: tz :: _ => parse_fields dd mm yy tm tz
  | _ => None
  end.

End RefTime.

Global Instance ref_time : TimeLib := {|
  gmtime := RefTime.gmtime;
  formatdate := RefTime.formatdate;
  parsedate := RefTime.parsedate
|}.


(** ** [wsgiref.headers.Headers]

    An ordered list of (name, value) pairs; names are matched without regard
    to case. *)

Module Headers.

Abbreviation t := (list (string * string)).

Definition same_name (name : string) (kv : string * string) : bool :=
  String.eqb (Py.lower (fst kv)) (Py.lower name).

(** [h[name]]: the first value under that name, [None] when there is none. *)
Definition get (h : t) (name : string) : option string :=
  snd <$> List.find (same_name name) h.

(** [del h[name]]: every pair under that name goes. *)
Definition delitem (h : t) (name : string) : t :=
  List.filter (fun kv => negb (same_name name kv)) h.

(** [h[name] = val]: delete, then append. *)
Definition setitem (h : t) (name val : string) : t :=
  delitem h name ++ [(name, val)].

Fixpoint escape (s : string) : string :=
  match s with
  | EmptyString => EmptyString
  | String c r =>
      if Ascii.eqb c "\" || Ascii.eqb c (ascii_of_nat 34)
      then String "\" (String c (escape r))
      else String c (escape r)
  end.

(** [_formatparam(param, value)] with its default [quote=1]. *)
Definition formatparam (param value : string) : string :=
  if Py.truthy value
  then param +:+ "=" +:+ Py.dquote +:+ escape value +:+ Py.dquote
  else param.

(** [h.add_header(name, value, **params)]. *)
Definition add_header (h : t) (name value : string)
    (params : list (string * string)) : t :=
  h ++ [(name, Py.join "; "
           (value :: map (fun kv => formatparam (Py.replace "_" "-" (fst kv)) (snd kv))
                         params))].

(** [h.items()]: a new list with the same pairs. *)
Definition items (h : t) : list (string * string) := h.

End Headers.

(** ** The operating system interface

    What the module asks of [os] and [os.path]: the directory walk, path
    arithmetic, [stat], [isfile] and opening a file for reading.  [os_stat]
    answers [None] where [os.stat] raises [OSError], [os_open] answers
    [false] where [open] raises [IOError]. *)

Record stat_result := { st_mtime : Z; st_size : Z }.

Record OS := {
  os_sep : ascii;
  os_walk : string -> bool -> list (string * list string * list string);
  os_path_join : string -> string -> string;
  os_path_relpath : string -> string -> string;
  os_stat : string -> option stat_result;
  os_path_isfile : string -> bool;
  os_open : string -> bool
}.

Definition stat (os : OS) (path : string) : result stat_result :=
  match os_stat os path with
  | Some st => Ok st
  | None => Raise (OSError path)
  end.

(** ** Configuration

    The keyword options of [WhiteNoise.CONFIG].  [guess_type] returns the
    pair (MIME type, encoding), either of which may be [None]. *)

Record Config := {
  max_age : option Z;
  allow_all_origins : bool;
  charset : string;
  index_file : string;
  guess_type : string -> option string * option string
}.

(** The same configuration with another [charset]. *)
Definition with_charset (c : string) (cfg : Config) : Config :=
  {| max_age := max_age cfg; allow_all_origins := allow_all_origins cfg;
     charset := c; index_file := index_file cfg; guess_type := guess_type cfg |}.

(** The WSGI environment: a dictionary.  Entries whose values are not strings
    ([wsgi.file_wrapper]) only matter by their presence. *)
Abbreviation environ := (gmap string string).

Definition getitem (e : environ) (key : string) : result string :=
  match e !! key with
  | Some v => Ok v
  | None => Raise (KeyError key)
  end.

(** What a WSGI application hands back: the arguments of its call to
    [start_response], then the returned iterable or the exception raised
    after that call. *)
Inductive body :=
  | Empty
  | FileWrapper (path : string)
  | YieldFile (path : string).

Record response := Response {
  status : string;
  response_headers : list (string * string);
  app_iter : result body
}.

Definition not_get_or_head (method : string) : bool :=
  negb (String.eqb method "GET") && negb (String.eqb method "HEAD").

Definition method_not_allowed : response :=
  Response "405 Method Not Allowed" [("Allow", "GET, HEAD")] (Ok Empty).

(** ** [class Redirect] *)

Module Redirect.

Record t := { path : string }.

Definition serve (self : t) (environ : environ) : result response :=
  method ← getitem environ "REQUEST_METHOD";
  if not_get_or_head method then Ok method_not_allowed
  else
    let host := default EmptyString (environ !! "HTTP_HOST") in
    location ← (if Py.truthy host
                then scheme ← getitem environ "wsgi.url_scheme";
                     Ok (scheme +:+ "://" +:+ host +:+ path self)
                else Ok (path self));
    Ok (Response "301 Moved Permanently" [("Location", location)] (Ok Empty)).

End Redirect.

(** ** [class StaticFile] *)

Module StaticFile.

(** [ACCEPT_GZIP_RE.search(s)] for the pattern [\bgzip\b]: the word [gzip]
    with no word character on either side.  [prev] tells whether the
    character before [s] is a word character. *)
Fixpoint search_gzip (prev : bool) (s : string) : bool :=
  match s with
  | EmptyString => false
  | String c r =>
      (negb prev && String.prefix "gzip" s
       && negb (from_option Py.is_word false (Py.head (Py.drop 4 s))))
      || search_gzip (Py.is_word c) r
  end.

Definition ACCEPT_GZIP_RE_search (s : string) : bool := search_gzip false s.

Definition BLOCK_SIZE : Z := 16 * 4096.
Definition MIMETYPES_WITH_CHARSET : list string :=
  ["application/javascript"; "application/xml"].
Definition CHARSET : string := "utf-8".
Definition FOREVER : Z := 10 * 365 * 24 * 60 * 60.
Definition GZIP_SUFFIX : string := ".gz".

Record t := {
  path : string;
  mtime_tuple : time_tuple;
  headers : Headers.t;
  gzip_path : option string;
  gzip_headers : option Headers.t
}.

Definition get_charset (mimetype : string) : option string :=
  if Py.startswith mimetype "text/"
     || bool_decide (mimetype ∈ MIMETYPES_WITH_CHARSET)
  then Some CHARSET else None.

(** [x or default] and the truth value of an optional string. *)
Definition or_else (x : option string) (d : string) : string :=
  match x with
  | Some s => if Py.truthy s then s else d
  | None => d
  end.

Definition opt_truthy (x : option string) : bool :=
  from_option Py.truthy false x.

(** [StaticFile.__init__(path, is_immutable, **config)]. *)
Definition init `{TimeLib} (os : OS) (path : string) (is_immutable : bool)
    (config : Config) : result t :=
  st ← stat os path;
  let mtime_tuple := gmtime (st_mtime st) in
  let '(mimetype, encoding) := guess_type config path in
  let mimetype := or_else mimetype "application/octet-stream" in
  let charset := get_charset mimetype in
  let params := if opt_truthy charset
                then [("charset", default EmptyString charset)] else [] in
  let headers : Headers.t :=
    [("Last-Modified", formatdate (st_mtime st));
     ("Content-Length", Py.str (st_size st))] in
  let headers := Headers.add_header headers "Content-Type" mimetype params in
  let headers := if opt_truthy encoding
                 then Headers.setitem headers "Content-Encoding"
                        (default EmptyString encoding)
                 else headers in
  let max_age := if is_immutable then Some FOREVER else max_age config in
  let headers := match max_age with
                 | Some age => Headers.setitem headers "Cache-Control"
                                 ("public, max-age=" +:+ Py.str age)
                 | None => headers
                 end in
  let headers := if allow_all_origins config
                 then Headers.setitem headers "Access-Control-Allow-Origin" "*"
                 else headers in
  let gzip_path := path +:+ GZIP_SUFFIX in
  if os_path_isfile os gzip_path then
    let headers := Headers.setitem headers "Vary" "Accept-Encoding" in
    let gzip_headers : Headers.t := Headers.items headers in
    let gzip_headers := Headers.setitem gzip_headers "Content-Encoding" "gzip" in
    gst ← stat os gzip_path;
    let gzip_headers :=
      Headers.setitem gzip_headers "Content-Length" (Py.str (st_size gst)) in
    Ok {| path := path; mtime_tuple := mtime_tuple; headers := headers;
          gzip_path := Some gzip_path; gzip_headers := Some gzip_headers |}
  else
    Ok {| path := path; mtime_tuple := mtime_tuple; headers := headers;
          gzip_path := None; gzip_headers := None |}.

Definition file_not_modified `{TimeLib} (pv : py_version) (self : t)
    (environ : environ) : result bool :=
  match environ !! "HTTP_IF_MODIFIED_SINCE" with
  | None => Ok false
  | Some last_requested =>
      if bool_decide (Some last_requested = Headers.get (headers self) "Last-Modified")
      then Ok true
      else parsed_ge pv (parsedate last_requested) (mtime_tuple self)
  end.

Definition get_path_and_headers (self : t) (environ : environ)
  : string * option Headers.t :=
  let plain := (path self, Some (headers self)) in
  match gzip_path self with
  | Some gzip_path =>
      if Py.truthy gzip_path then
        if ACCEPT_GZIP_RE_search
             (default EmptyString (environ !! "HTTP_ACCEPT_ENCODING"))
        then (gzip_path, gzip_headers self)
        else plain
      else plain
  | None => plain
  end.

(** [open(path, 'rb')] handed to the server's file wrapper when the
    environment has one, to [yield_file] otherwise. *)
Definition open_body (os : OS) (environ : environ) (path : string) : result body :=
  if os_open os path
  then Ok (if bool_decide (is_Some (environ !! "wsgi.file_wrapper"))
           then FileWrapper path else YieldFile path)
  else Raise (IOError path).

Definition serve `{TimeLib} (pv : py_version) (os : OS) (self : t)
    (environ : environ) : result response :=
  method ← getitem environ "REQUEST_METHOD";
  if not_get_or_head method then Ok method_not_allowed
  else
    not_modified ← file_not_modified pv self environ;
    if not_modified : bool then Ok (Response "304 Not Modified" [] (Ok Empty))
    else
      let '(path, headers) := get_path_and_headers self environ in
      items ← from_option (fun h => Ok (Headers.items h)) (Raise AttributeError) headers;
      Ok (Response "200 OK" items
            (if String.eqb method "HEAD" then Ok Empty
             else open_body os environ path)).

End StaticFile.

(** ** [StaticFile.yield_file]

    The fallback iterator over an opened file: it reads blocks of
    [BLOCK_SIZE] bytes until a read comes back empty and closes the file in
    its [finally] clause. *)

Module YieldFile.

(** A file object opened for reading: the bytes not read yet, and whether the
    file has been closed. *)
Record fileobj := { unread : string; closed : bool }.

(** [fileobj.read(n)] on an open file. *)
Definition read (n : nat) (f : fileobj) : string * fileobj :=
  (Py.take n (unread f),
   {| unread := Py.drop n (unread f); closed := closed f |}).

Definition close (f : fileobj) : fileobj :=
  {| unread := unread f; closed := true |}.

(** The generator object [yield_file(fileobj)] returns: created and not yet
    started, suspended at its [yield], or finished. *)
Inductive generator :=
  | Created (f : fileobj)
  | Suspended (f : fileobj)
  | Finished (f : fileobj).

Definition file_of (g : generator) : fileobj :=
  match g with Created f | Suspended f | Finished f => f end.

Definition block_size : nat := Z.to_nat StaticFile.BLOCK_SIZE.

(** [next(g)]: one turn of the loop.  An empty block breaks out of the loop,
    through the [finally] clause. *)
Definition next (g : generator) : option string * generator :=
  match g with
  | Created f | Suspended f =>
      let '(block, f') := read block_size f in
      if Py.truthy block then (Some block, Suspended f')
      else (None, Finished (close f'))
  | Finished f => (None, Finished f)
  end.

(** [g.close()]: [GeneratorExit] is raised at the [yield] the generator is
    suspended at, and the [finally] clause runs.  A generator that was never
    started only becomes finished: no line of its body, the [try] included,
    has been entered. *)
Definition gen_close (g : generator) : generator :=
  match g with
  | Created f => Finished f
  | Suspended f => Finished (close f)
  | Finished f => Finished f
  end.

(** Iterating the generator, at most [fuel] turns: the blocks it yielded
    and the generator as it is left. *)
Fixpoint drain (fuel : nat) (g : generator) : list string * generator :=
  match fuel with
  | O => ([], g)
  | S fuel' =>
      match next g with
      | (Some block, g') =>
          let '(blocks, g'') := drain fuel' g' in (block :: blocks, g'')
      | (None, g') => ([], g')
      end
  end.

End YieldFile.

(** ** [class WhiteNoise] *)

Module WhiteNoise.

(** What the catalogue stores under a URL: an object with a [serve] method. *)
Inductive entry :=
  | File (f : StaticFile.t)
  | Moved (r : Redirect.t).

(** The dispatcher's answer: its own response, or whatever the wrapped
    application returned. *)
Inductive answer (A : Type) :=
  | Served (r : response)
  | Downstream (a : A).
Arguments Served {A} r.
Arguments Downstream {A} a.

(** [is_immutable_file] is the method subclasses override; the base class
    answers [False]. *)
Record t (A : Type) := {
  config : Config;
  application : environ -> A;
  files : gmap string entry;
  is_immutable_file : string -> string -> bool
}.
Arguments config {A} _.
Arguments application {A} _.
Arguments files {A} _.
Arguments is_immutable_file {A} _.

Definition CONFIG (guess : string -> option string * option string) : Config :=
  {| max_age := Some 60;
     allow_all_origins := true;
     charset := "utf-8";
     index_file := "index.html";
     guess_type := guess |}.

Definition base_is_immutable_file (static_file url : string) : bool := false.

Definition serve_entry `{TimeLib} (pv : py_version) (os : OS) (e : entry)
    (environ : environ) : result response :=
  match e with
  | File f => StaticFile.serve pv os f environ
  | Moved r => Redirect.serve r environ
  end.

(** [WhiteNoise.__call__]. *)
Definition call `{TimeLib} {A} (pv : py_version) (os : OS) (self : t A)
    (environ : environ) : result (answer A) :=
  path_info ← getitem environ "PATH_INFO";
  match files self !! path_info with
  | None => Ok (Downstream (application self environ))
  | Some static_file =>
      r ← serve_entry pv os static_file environ; Ok (Served r)
  end.

Definition get_static_file `{TimeLib} {A} (os : OS) (self : t A)
    (file_path url : string) : result StaticFile.t :=
  StaticFile.init os file_path (is_immutable_file self file_path url) (config self).

(** The prefix every URL of one [add_files] call starts with. *)
Definition url_prefix (prefix : option string) : string :=
  let prefix := Py.strip "/" (default EmptyString prefix) in
  if Py.truthy prefix then "/" +:+ prefix +:+ "/" else "/".

Definition url_of (os : OS) (root prefix dir_path filename : string) : string :=
  let file_path := os_path_join os dir_path filename in
  prefix +:+ Py.replace (os_sep os) "/" (os_path_relpath os file_path root).

(** The body of the inner loop of [add_files]: the entries one file writes
    into the [files] dictionary. *)
Definition add_file `{TimeLib} {A} (os : OS) (self : t A) (root prefix : string)
    (dir_path filename : string) (files : gmap string entry)
  : result (gmap string entry) :=
  let index_file := index_file (config self) in
  let file_path := os_path_join os dir_path filename in
  let url := url_of os root prefix dir_path filename in
  files ←
    (if Py.endswith url index_file then
       let noslash := Py.slice_to url (- Py.len index_file - 1) in
       let withslash := Py.slice_to url (- Py.len index_file) in
       files ←
         (if Py.truthy noslash
          then Ok (<[noslash := Moved {| Redirect.path := withslash |}]> files)
          else f ← get_static_file os self file_path noslash;
               Ok (<[noslash := File f]> files));
       f ← get_static_file os self file_path withslash;
       Ok (<[withslash := File f]> files)
     else Ok files);
  f ← get_static_file os self file_path url;
  Ok (<[url := File f]> files).

Fixpoint foldM {S X} (f : S -> X -> result S) (s : S) (l : list X) : result S :=
  match l with
  | [] => Ok s
  | x :: l' => s' ← f s x; foldM f s' l'
  end.

(** [WhiteNoise.add_files(root, prefix, followlinks)]: the catalogue after the
    walk, or the exception that interrupted it. *)
Definition add_files `{TimeLib} {A} (os : OS) (self : t A) (root : string)
    (prefix : option string) (followlinks : bool) : result (t A) :=
  let prefix := url_prefix prefix in
  files ←
    foldM (fun files '(dir_path, _, filenames) =>
             foldM (fun files filename =>
                      add_file os self root prefix dir_path filename files)
                   files filenames)
          (files self) (os_walk os root followlinks);
  Ok {| config := config self; application := application self;
        files := files; is_immutable_file := is_immutable_file self |}.

(** [WhiteNoise.__init__(application, root, prefix, **kwargs)], the keyword
    options already merged over [CONFIG]. *)
Definition init `{TimeLib} {A} (os : OS) (application : environ -> A)
    (root prefix : option string) (config : Config)
    (hook : string -> string -> bool) : result (t A) :=
  let self := {| config := config; application := application;
                 files := ∅; is_immutable_file := hook |} in
  match root with
  | Some root => add_files os self root prefix false
  | None => Ok self
  end.

End WhiteNoise.

(** ** The objects behind a catalogue entry

    [StaticFile.serve] hands a header list to the server's [start_response],
    which is free to change the list it receives.  Here the lists are cells
    of a store, a [Headers] object is the location of its list, and a
    [StaticFile] object is a record of attribute values in the store, so that
    what the server can reach is explicit. *)

Module Store.

Abbreviation loc := positive.

Record obj := {
  o_path : string;
  o_mtime_tuple : time_tuple;
  o_headers : loc;
  o_gzip_path : option string;
  o_gzip_headers : option loc
}.

Record heap := {
  objs : gmap loc obj;
  lists : gmap loc (list (string * string))
}.

(** The server's [start_response]: given the status and the contents of the
    list it is handed, the contents it leaves in that list. *)
Definition callback := string -> list (string * string) -> list (string * string).

(** A new list object. *)
Definition alloc (h : heap) (l : list (string * string)) : loc * heap :=
  let p := fresh (dom (lists h)) in
  (p, {| objs := objs h; lists := <[p := l]> (lists h) |}).

Definition start_response (cb : callback) (status : string) (p : loc)
    (h : heap) : heap :=
  {| objs := objs h;
     lists := alter (cb status) p (lists h) |}.

(** The attribute values and header lists of the object at [self]. *)
Definition snapshot (h : heap) (self : loc) : option StaticFile.t :=
  o ← objs h !! self;
  hs ← lists h !! o_headers o;
  gz ← match o_gzip_headers o with
       | Some p => Some <$> lists h !! p
       | None => Some None
       end;
  Some {| StaticFile.path := o_path o;
          StaticFile.mtime_tuple := o_mtime_tuple o;
          StaticFile.headers := hs;
          StaticFile.gzip_path := o_gzip_path o;
          StaticFile.gzip_headers := gz |}.

(** [start_response(status, l)] on a list built for the call. *)
Definition respond (cb : callback) (h : heap) (status : string)
    (l : list (string * string)) (ret : result body) : heap * result response :=
  let '(p, h1) := alloc h l in
  (start_response cb status p h1, Ok (Response status l ret)).

(** [get_path_and_headers], returning the chosen [Headers] object. *)
Definition get_path_and_headers (o : obj) (environ : environ)
  : string * option loc :=
  let plain := (o_path o, Some (o_headers o)) in
  match o_gzip_path o with
  | Some gzip_path =>
      if Py.truthy gzip_path then
        if StaticFile.ACCEPT_GZIP_RE_search
             (default EmptyString (environ !! "HTTP_ACCEPT_ENCODING"))
        then (gzip_path, o_gzip_headers o)
        else plain
      else plain
  | None => plain
  end.

(** [StaticFile.serve] on the object at [self]; [None] when there is no such
    object in the store. *)
Definition serve `{TimeLib} (cb : callback) (pv : py_version) (os : OS)
    (self : loc) (environ : environ) (h : heap)
  : option (heap * result response) :=
  o ← objs h !! self;
  sf ← snapshot h self;
  match getitem environ "REQUEST_METHOD" with
  | Raise e => Some (h, Raise e)
  | Ok method =>
      if not_get_or_head method
      then Some (respond cb h "405 Method Not Allowed" [("Allow", "GET, HEAD")]
                   (Ok Empty))
      else
        match StaticFile.file_not_modified pv sf environ with
        | Raise e => Some (h, Raise e)
        | Ok true => Some (respond cb h "304 Not Modified" [] (Ok Empty))
        | Ok false =>
            let '(path, headers) := get_path_and_headers o environ in
            match headers with
            | None => Some (h, Raise AttributeError)
            | Some p =>
                l ← lists h !! p;
                Some (respond cb h "200 OK" (Headers.items l)
                        (if String.eqb method "HEAD" then Ok Empty
                         else StaticFile.open_body os environ path))
            end
        end
  end.

End Store.

(** ** Word boundaries

    What [\b] asks on either side of a match: [word_before prev a] tells
    whether the last character of [a] is a word character ([prev] when [a]
    is empty), [word_after b] whether the first character of [b] is one. *)

Fixpoint word_before (prev : bool) (a : string) : bool :=
  match a with
  | EmptyString => prev
  | String c r => word_before (Py.is_word c) r
  end.

Definition word_after (b : string) : bool :=
  from_option Py.is_word false (Py.head b).

(** A value made of ASCII characters only, as the tokens of an HTTP header
    are.  On such a value the pattern reads a word character the same way
    whether it is matched byte by byte (Python 2) or with the Unicode tables
    (Python 3): a letter, a digit or an underscore. *)
Fixpoint ascii_only (s : string) : bool :=
  match s with
  | EmptyString => true
  | String c r => (nat_of_ascii c <? 128)%nat && ascii_only r
  end.

(** ** Where catalogue entries come from *)

(** A path the walk of [root] lists: a directory of the walk joined with one
    of its file names. *)
Definition discovered (os : OS) (root : string) (followlinks : bool)
    (file_path : string) : Prop :=
  exists dir_path dirnames filenames filename,
    (dir_path, dirnames, filenames) ∈ os_walk os root followlinks
    /\ filename ∈ filenames
    /\ file_path = os_path_join os dir_path filename.

(** The keys one file assigns in the [files] dictionary: the two shortened
    URLs when its URL ends with the index file name, then the URL itself. *)
Definition keys_written (os : OS) (cfg : Config)
    (root prefix dir_path filename : string) : list string :=
  let url := WhiteNoise.url_of os root prefix dir_path filename in
  if Py.endswith url (index_file cfg)
  then [Py.slice_to url (- Py.len (index_file cfg) - 1);
        Py.slice_to url (- Py.len (index_file cfg)); url]
  else [url].

(** Some other file of the walk assigns the key [url] as well. *)
Definition written_by_another (os : OS) (cfg : Config) (root : string)
    (followlinks : bool) (prefix dir_path filename url : string) : Prop :=
  exists d ds fs name,
    (d, ds, fs) ∈ os_walk os root followlinks
    /\ name ∈ fs
    /\ (d, name) <> (dir_path, filename)
    /\ url ∈ keys_written os cfg root prefix d name.

(** An entry as [add_files] makes them: a redirect, or a descriptor that
    [StaticFile.__init__] returned for some path. *)
Definition built_by_init `{TimeLib} (os : OS) (e : WhiteNoise.entry) : Prop :=
  match e with
  | WhiteNoise.File f =>
      exists path imm cfg, StaticFile.init os path imm cfg = Ok f
  | WhiteNoise.Moved _ => True
  end.

(** ** A small file tree to run the catalogue on *)

Module Fixture.

(** A few rows of the [mimetypes] table. *)
Definition guess_type (path : string) : option string * option string :=
  if Py.endswith path ".css.gz" then (Some "text/css", Some "gzip")
  else if Py.endswith path ".css" then (Some "text/css", None)
  else if Py.endswith path ".html" then (Some "text/html", None)
  else if Py.endswith path ".js" then (Some "application/javascript", None)
  else if Py.endswith path ".png" then (Some "image/png", None)
  else (None, None).

(** [posixpath.join] of two components. *)
Definition join (a b : string) : string :=
  if Py.startswith b "/" then b
  else if negb (Py.truthy a) || Py.endswith a "/" then a +:+ b
  else a +:+ "/" +:+ b.

(** [posixpath.relpath] for a normalised [path] below [start]. *)
Definition relpath (path start : string) : string :=
  if Py.startswith path (start +:+ "/")
  then Py.drop (String.length start + 1) path else path.

Definition lookup_path {X} (table : list (string * X)) (path : string) : option X :=
  snd <$> List.find (fun kv => String.eqb (fst kv) path) table.

(** A POSIX system whose walk of any root is [walk] and whose regular files
    are the paths of [table]. *)
Definition posix (walk : list (string * list string * list string))
    (table : list (string * stat_result)) : OS :=
  {| os_sep := "/";
     os_walk := fun _ _ => walk;
     os_path_join := join;
     os_path_relpath := relpath;
     os_stat := lookup_path table;
     os_path_isfile := fun p => bool_decide (is_Some (lookup_path table p));
     os_open := fun p => bool_decide (is_Some (lookup_path table p)) |}.

Definition new_year_2015 : Z := 1420070400.

(** [static/] holding a style sheet with its compressed sibling. *)
Definition styles : OS :=
  posix [("static", [], ["foo.css"; "foo.css.gz"])]
        [("static/foo.css", {| st_mtime := new_year_2015; st_size := 1200 |});
         ("static/foo.css.gz", {| st_mtime := new_year_2015; st_size := 300 |})].

(** [site/docs/] holding [index.html] and, listed after it, [_index.html]. *)
Definition docs : OS :=
  posix [("site", ["docs"], []);
         ("site/docs", [], ["index.html"; "_index.html"])]
        [("site/docs/index.html", {| st_mtime := new_year_2015; st_size := 40 |});
         ("site/docs/_index.html", {| st_mtime := new_year_2015; st_size := 50 |})].

(** [site/docs/index.html] on its own, and an index file at the root. *)
Definition docs_only : OS :=
  posix [("site", ["docs"], ["index.html"]);
         ("site/docs", [], ["index.html"])]
        [("site/index.html", {| st_mtime := new_year_2015; st_size := 30 |});
         ("site/docs/index.html", {| st_mtime := new_year_2015; st_size := 40 |})].

Definition downstream (e : environ) : string := "downstream".

Definition request (method path : string) (extra : list (string * string)) : environ :=
  list_to_map (extra ++ [("REQUEST_METHOD", method); ("PATH_INFO", path)]).

End Fixture.

(** The catalogues built over the fixture trees, by the base class with its
    default configuration. *)

Definition expect {X} (d : X) (r : result X) : X :=
  match r with Ok x => x | Raise _ => d end.

Definition empty_catalogue : WhiteNoise.t string :=
  {| WhiteNoise.config := WhiteNoise.CONFIG Fixture.guess_type;
     WhiteNoise.application := Fixture.downstream;
     WhiteNoise.files := ∅;
     WhiteNoise.is_immutable_file := WhiteNoise.base_is_immutable_file |}.

Definition build (os : OS) (root : string) : result (WhiteNoise.t string) :=
  WhiteNoise.init os Fixture.downstream (Some root) None
    (WhiteNoise.CONFIG Fixture.guess_type) WhiteNoise.base_is_immutable_file.

Definition styles_catalogue : WhiteNoise.t string :=
  expect empty_catalogue (build Fixture.styles "static").

Definition foo_css : StaticFile.t :=
  expect {| StaticFile.path := EmptyString;
            StaticFile.mtime_tuple := gmtime 0;
            StaticFile.headers := [];
            StaticFile.gzip_path := None;
            StaticFile.gzip_headers := None |}
         (StaticFile.init Fixture.styles "static/foo.css" false
            (WhiteNoise.CONFIG Fixture.guess_type)).

Definition docs_catalogue : WhiteNoise.t string :=
  expect empty_catalogue (build Fixture.docs "site").

Definition docs_only_catalogue : WhiteNoise.t string :=
  expect empty_catalogue (build Fixture.docs_only "site").

Definition descriptor (os : OS) (path : string) : StaticFile.t :=
  expect foo_css
    (StaticFile.init os path false (WhiteNoise.CONFIG Fixture.guess_type)).

Definition foo_css_gz : StaticFile.t := descriptor Fixture.styles "static/foo.css.gz".
Definition docs_index : StaticFile.t := descriptor Fixture.docs "site/docs/index.html".
Definition root_index : StaticFile.t := descriptor Fixture.docs_only "site/index.html".

Definition rfc850_new_year : string := "Thursday, 01-Jan-15 00:00:00 GMT".

(** A configuration asking for another charset. *)
Definition latin1_config : Config :=
  with_charset "latin-1" (WhiteNoise.CONFIG Fixture.guess_type).

(** A store with the descriptor of [foo.css] at location 1, and a server
    whose [start_response] appends a header of its own to the list it gets. *)
Definition foo_css_store : Store.heap :=
  {| Store.objs :=
       {[ 1%positive :=
            {| Store.o_path := "static/foo.css";
               Store.o_mtime_tuple := StaticFile.mtime_tuple foo_css;
               Store.o_headers := 2%positive;
               Store.o_gzip_path := StaticFile.gzip_path foo_css;
               Store.o_gzip_headers := Some 3%positive |} ]};
     Store.lists :=
       {[ 2%positive := StaticFile.headers foo_css;
          3%positive := default [] (StaticFile.gzip_headers foo_css) ]} |}.

Definition stamping_server : Store.callback :=
  fun status l => l ++ [("Server", "stamp")].

(** The same system after every file has been removed, and a system whose
    walk lists a file that [stat] no longer finds. *)
Definition nothing_left : OS := Fixture.posix [] [].

Definition vanished : OS :=
  Fixture.posix [("static", [], ["foo.css"; "gone.css"])]
    [("static/foo.css", {| st_mtime := Fixture.new_year_2015; st_size := 1200 |})].

(** The answer to a GET for [/foo.css] once the file can no longer be
    opened. *)
Definition unopened_answer : response :=
  Response "200 OK" (StaticFile.headers foo_css) (Raise (IOError "static/foo.css")).

(** The catalogue right after [site/docs/index.html] alone was processed. *)
Definition docs_index_step : gmap string WhiteNoise.entry :=
  expect ∅ (WhiteNoise.add_file Fixture.docs_only empty_catalogue "site" "/"
              "site/docs" "index.html" ∅).

(** A configuration without [max_age] and without the cross-origin header. *)
Definition immutable_no_cors : Config :=
  {| max_age := None; allow_all_origins := false; charset := "utf-8";
     index_file := "index.html"; guess_type := Fixture.guess_type |}.

(** Requests used below. *)
Definition plain_get : environ := Fixture.request "GET" "/foo.css" [].

Definition garbage_get : environ :=
  Fixture.request "GET" "/foo.css" [("HTTP_IF_MODIFIED_SINCE", "garbage")].

Definition later_get : environ :=
  Fixture.request "GET" "/foo.css"
    [("HTTP_IF_MODIFIED_SINCE", "Thu, 01 Jan 2015 00:00:01 +0000")].

Definition gzip_get_index : environ :=
  Fixture.request "GET" "/index.html" [("HTTP_ACCEPT_ENCODING", "gzip")].

Definition gzip_head : environ :=
  Fixture.request "HEAD" "/foo.css" [("HTTP_ACCEPT_ENCODING", "gzip")].

(** An opened file of eleven bytes. *)
Definition hello_file : YieldFile.fileobj :=
  {| YieldFile.unread := "hello world"; YieldFile.closed := false |}.

(** ** The reference time functions have the documented shape *)

Lemma days_before_month_nonneg m : 0 <= RefTime.days_before_month m.
Proof.
  unfold RefTime.days_before_month.
  generalize (Z.to_nat (m - 1)); intros n.
  do 13 (destruct n as [|n]; simpl; [lia|]).
  destruct n; simpl; lia.
Qed.

Lemma civil_from_days_day days y m d :
  RefTime.civil_from_days days = (y, m, d) -> 1 <= d.
Proof.
  unfold RefTime.civil_from_days. intros H. inversion H; subst; clear H.
  match goal with |- 1 <= ?doy - (153 * ((5 * ?doy + 2) / 153) + 2) / 5 + 1 =>
    generalize doy end.
  intros doy. Z.div_mod_to_equations. lia.
Qed.

Lemma ref_gmtime_wday t : 0 <= tm_wday (RefTime.gmtime t).
Proof.
  unfold RefTime.gmtime. destruct (RefTime.civil_from_days _) as [[y m] d]; simpl.
  apply Z.mod_pos_bound. lia.
Qed.

Lemma ref_gmtime_yday t : 1 <= tm_yday (RefTime.gmtime t).
Proof.
  unfold RefTime.gmtime.
  destruct (RefTime.civil_from_days _) as [[y m] d] eqn:E; simpl.
  apply civil_from_days_day in E. pose proof (days_before_month_nonneg m).
  destruct (_ && _); lia.
Qed.

Lemma ref_gmtime_isdst t : tm_isdst (RefTime.gmtime t) = 0.
Proof.
  unfold RefTime.gmtime. by destruct (RefTime.civil_from_days _) as [[y m] d].
Qed.

Lemma ref_parsedate_unusable s t :
  RefTime.parsedate s = Some t ->
  tm_wday t = 0 /\ tm_yday t = 1 /\ tm_isdst t = -1.
Proof.
  unfold RefTime.parsedate, RefTime.parse_fields. intros H.
  repeat (case_match; simplify_option_eq; try done).
Qed.

Lemma ref_time_shape : documented_shape ref_time.
Proof.
  split.
  - apply ref_gmtime_wday.
  - apply ref_gmtime_yday.
  - apply ref_gmtime_isdst.
  - apply ref_parsedate_unusable.
Qed.

(** ** Sequences and time tuples *)

Lemma seq_ge_refl_tail (a b c : list Z) :
  seq_ge (a ++ b) (a ++ c) = seq_ge b c.
Proof. induction a as [|x a IH]; simpl; [done|]. by rewrite Z.eqb_refl. Qed.

Lemma seq_lt_ge_app (a b x y : list Z) :
  length a = length b -> seq_lt a b = true -> seq_ge (b ++ x) (a ++ y) = true.
Proof.
  revert b. induction a as [|p a IH]; intros [|q b] Hl Hlt; simplify_eq/=.
  destruct (p =? q) eqn:E.
  - apply Z.eqb_eq in E as ->. rewrite Z.eqb_refl. by apply IH.
  - rewrite (proj2 (Z.eqb_neq q p)) by (apply Z.eqb_neq in E; lia).
    done.
Qed.

Lemma seq_lt_not_ge_app (a b x y : list Z) :
  length a = length b -> seq_lt a b = true -> seq_ge (a ++ x) (b ++ y) = false.
Proof.
  revert b. induction a as [|p a IH]; intros [|q b] Hl Hlt; simplify_eq/=.
  destruct (p =? q) eqn:E.
  - by apply IH.
  - apply Z.ltb_lt in Hlt. apply Z.ltb_ge. lia.
Qed.

Lemma tm_fields_split (t : time_tuple) :
  tm_fields t = tm_date t ++ [tm_wday t; tm_yday t; tm_isdst t].
Proof. done. Qed.

(** A parsed date whose calendar fields equal those of a [gmtime] result
    compares below it: the placeholders 0, 1, -1 lose against any week day,
    year day and the daylight flag 0. *)
Lemma tuple_ge_same_date (t u : time_tuple) :
  tm_date t = tm_date u ->
  tm_wday t = 0 -> tm_yday t = 1 -> tm_isdst t = -1 ->
  0 <= tm_wday u -> 1 <= tm_yday u -> tm_isdst u = 0 ->
  tuple_ge t u = false.
Proof.
  intros Hd Hw Hy Hi Hw' Hy' Hi'. unfold tuple_ge.
  rewrite !tm_fields_split, Hd, seq_ge_refl_tail, Hw, Hy, Hi, Hi'.
  cbn [seq_ge].
  destruct (0 =? tm_wday u) eqn:E1; [|apply Z.ltb_ge; lia].
  destruct (1 =? tm_yday u) eqn:E2; [done|].
  apply Z.ltb_ge; lia.
Qed.

Lemma tuple_ge_later_date (t u : time_tuple) :
  seq_lt (tm_date u) (tm_date t) = true -> tuple_ge t u = true.
Proof.
  intros H. unfold tuple_ge. rewrite !tm_fields_split.
  by apply seq_lt_ge_app.
Qed.

Lemma tuple_ge_earlier_date (t u : time_tuple) :
  seq_lt (tm_date t) (tm_date u) = true -> tuple_ge t u = false.
Proof.
  intros H. unfold tuple_ge. rewrite !tm_fields_split.
  by apply seq_lt_not_ge_app.
Qed.

(** ** Header lists *)

Lemma find_filter_neg_snoc {X} (p : X -> bool) (l : list X) (x : X) :
  p x = true -> List.find p (List.filter (fun y => negb (p y)) l ++ [x]) = Some x.
Proof.
  intros Hx. induction l as [|y l IH]; simpl; [by rewrite Hx|].
  destruct (p y) eqn:E; simpl; [done|]. by rewrite E.
Qed.

Lemma find_filter_other_snoc {X} (p q : X -> bool) (l : list X) (x : X) :
  (forall y, p y = true -> q y = false) -> p x = false ->
  List.find p (List.filter (fun y => negb (q y)) l ++ [x]) = List.find p l.
Proof.
  intros Hpq Hx. induction l as [|y l IH]; simpl; [by rewrite Hx|].
  destruct (p y) eqn:Ep.
  - rewrite (Hpq y Ep). simpl. by rewrite Ep.
  - destruct (q y); simpl; [done|]. by rewrite Ep.
Qed.

Lemma same_name_refl name val : Headers.same_name name (name, val) = true.
Proof. unfold Headers.same_name. simpl. apply String.eqb_refl. Qed.

Lemma get_setitem (h : Headers.t) (name val : string) :
  Headers.get (Headers.setitem h name val) name = Some val.
Proof.
  unfold Headers.get, Headers.setitem, Headers.delitem.
  rewrite find_filter_neg_snoc; [done|apply same_name_refl].
Qed.

Lemma get_setitem_other (h : Headers.t) (name val other : string) :
  Py.lower name <> Py.lower other ->
  Headers.get (Headers.setitem h name val) other = Headers.get h other.
Proof.
  intros Hne. unfold Headers.get, Headers.setitem, Headers.delitem.
  rewrite find_filter_other_snoc; [done| |].
  - intros [k v]. unfold Headers.same_name; simpl.
    intros ->%String.eqb_eq. by apply String.eqb_neq.
  - unfold Headers.same_name; simpl. by apply String.eqb_neq.
Qed.

Lemma get_snoc_other (h : Headers.t) (name val other : string) :
  Py.lower name <> Py.lower other ->
  Headers.get (h ++ [(name, val)]) other = Headers.get h other.
Proof.
  intros Hne. unfold Headers.get. f_equal.
  induction h as [|kv h IH]; simpl.
  - unfold Headers.same_name; simpl.
    by rewrite (proj2 (String.eqb_neq _ _) Hne).
  - by destruct (Headers.same_name other kv).
Qed.

Ltac other_header :=
  first [ rewrite get_setitem_other by (vm_compute; discriminate)
        | rewrite get_snoc_other by (vm_compute; discriminate) ].

(** ** What [StaticFile.__init__] builds *)

Section Init.
Context `{TimeLib}.

Ltac unfold_init os path cfg st :=
  unfold StaticFile.init, stat;
  destruct (os_stat os path) as [st|] eqn:?;
  cbn [mbind result_bind]; [|discriminate];
  destruct (guess_type cfg path) as [mimetype encoding] eqn:?.

Ltac gzip_branch os path Hinit :=
  destruct (os_path_isfile os (path +:+ StaticFile.GZIP_SUFFIX));
  [destruct (os_stat os (path +:+ StaticFile.GZIP_SUFFIX)) as [gst|];
   cbn [mbind result_bind]; [|discriminate]|];
  intros Hinit; injection Hinit as <-.

Lemma init_path os path imm cfg sf :
  StaticFile.init os path imm cfg = Ok sf ->
  exists st, os_stat os path = Some st
    /\ StaticFile.path sf = path
    /\ StaticFile.mtime_tuple sf = gmtime (st_mtime st)
    /\ Headers.get (StaticFile.headers sf) "Last-Modified"
       = Some (formatdate (st_mtime st)).
Proof.
  unfold_init os path cfg st.
  gzip_branch os path Hinit; exists st;
    cbn [StaticFile.path StaticFile.mtime_tuple StaticFile.headers];
    (split_and!; [done..|]);
    repeat case_match; repeat other_header; reflexivity.
Qed.

Lemma init_gzip os path imm cfg sf :
  StaticFile.init os path imm cfg = Ok sf ->
  if os_path_isfile os (path +:+ StaticFile.GZIP_SUFFIX) then
    exists gst gh,
      os_stat os (path +:+ StaticFile.GZIP_SUFFIX) = Some gst
      /\ StaticFile.gzip_path sf = Some (path +:+ StaticFile.GZIP_SUFFIX)
      /\ StaticFile.gzip_headers sf = Some gh
      /\ Headers.get gh "Content-Encoding" = Some "gzip"
      /\ Headers.get gh "Content-Length" = Some (Py.str (st_size gst))
      /\ Headers.get gh "Vary" = Some "Accept-Encoding"
      /\ Headers.get (StaticFile.headers sf) "Vary" = Some "Accept-Encoding"
  else StaticFile.gzip_path sf = None /\ StaticFile.gzip_headers sf = None.
Proof.
  unfold_init os path cfg st.
  destruct (os_path_isfile os (path +:+ StaticFile.GZIP_SUFFIX)).
  - destruct (os_stat os (path +:+ StaticFile.GZIP_SUFFIX)) as [gst|];
      cbn [mbind result_bind]; [|discriminate].
    intros Hinit; injection Hinit as <-.
    eexists gst, _.
    cbn [StaticFile.gzip_path StaticFile.gzip_headers StaticFile.headers].
    split_and!; [done..| | | |].
    + other_header. apply get_setitem.
    + apply get_setitem.
    + do 2 other_header. unfold Headers.items. apply get_setitem.
    + apply get_setitem.
  - intros Hinit; by injection Hinit as <-.
Qed.

(** The configured [charset] never reaches the headers. *)
Lemma init_with_charset os path imm cfg c :
  StaticFile.init os path imm (with_charset c cfg) = StaticFile.init os path imm cfg.
Proof. reflexivity. Qed.

Lemma init_content_type os path imm cfg sf :
  StaticFile.init os path imm cfg = Ok sf ->
  let mimetype :=
    StaticFile.or_else (fst (guess_type cfg path)) "application/octet-stream" in
  Headers.get (StaticFile.headers sf) "Content-Type"
  = Some (match StaticFile.get_charset mimetype with
          | Some c => mimetype +:+ "; charset=" +:+ Py.dquote +:+ c +:+ Py.dquote
          | None => mimetype
          end).
Proof.
  unfold_init os path cfg st. cbn [fst].
  assert (forall m,
    Py.join "; " (m :: map (fun kv => Headers.formatparam (Py.replace "_" "-" kv.1) kv.2)
       (if StaticFile.opt_truthy (StaticFile.get_charset m)
        then [("charset", default EmptyString (StaticFile.get_charset m))] else []))
    = match StaticFile.get_charset m with
      | Some c => m +:+ "; charset=" +:+ Py.dquote +:+ c +:+ Py.dquote
      | None => m
      end) as Hval.
  { intros m. unfold StaticFile.get_charset.
    destruct (Py.startswith m _ || bool_decide _); reflexivity. }
  unfold Headers.add_header; rewrite Hval.
  gzip_branch os path Hinit; cbn [StaticFile.headers];
    repeat case_match; repeat other_header; reflexivity.
Qed.

End Init.

(** ** Serving a request *)

Section Serving.
Context `{TimeLib}.

Lemma not_get_or_head_other (method : string) :
  method <> "GET" -> method <> "HEAD" -> not_get_or_head method = true.
Proof.
  intros H1 H2. unfold not_get_or_head.
  by rewrite (proj2 (String.eqb_neq _ _) H1), (proj2 (String.eqb_neq _ _) H2).
Qed.

Lemma not_get_or_head_get_head (method : string) :
  method = "GET" \/ method = "HEAD" -> not_get_or_head method = false.
Proof. by intros [-> | ->]. Qed.

(** Both kinds of entry refuse another method before anything else. *)
Lemma serve_entry_other_method pv os e (environ : environ) method :
  environ !! "REQUEST_METHOD" = Some method ->
  not_get_or_head method = true ->
  WhiteNoise.serve_entry pv os e environ = Ok method_not_allowed.
Proof.
  intros Hm Hnot.
  destruct e; unfold WhiteNoise.serve_entry, StaticFile.serve, Redirect.serve, getitem;
    rewrite Hm; cbn [mbind result_bind]; by rewrite Hnot.
Qed.

Lemma call_entry {A} pv os (wn : WhiteNoise.t A) (environ : environ) url e :
  environ !! "PATH_INFO" = Some url ->
  WhiteNoise.files wn !! url = Some e ->
  WhiteNoise.call pv os wn environ
  = (r ← WhiteNoise.serve_entry pv os e environ; Ok (WhiteNoise.Served r)).
Proof.
  intros Hp He. unfold WhiteNoise.call, getitem. rewrite Hp.
  cbn [mbind result_bind]. by rewrite He.
Qed.

(** A descriptor built by [__init__] always has headers for the variant it
    selects. *)
Lemma init_selects_headers os path imm cfg sf (environ : environ) :
  StaticFile.init os path imm cfg = Ok sf ->
  exists p hs, StaticFile.get_path_and_headers sf environ = (p, Some hs).
Proof.
  intros Hinit. apply init_gzip in Hinit.
  unfold StaticFile.get_path_and_headers.
  destruct (os_path_isfile _ _).
  - destruct Hinit as (gst & gh & _ & -> & -> & _).
    repeat case_match; eauto.
  - destruct Hinit as [-> _]. eauto.
Qed.

(** GET and HEAD with an unsatisfied condition are answered 200 with the
    selected header list; HEAD has no body. *)
Lemma serve_modified pv os sf (environ : environ) method p hs :
  environ !! "REQUEST_METHOD" = Some method ->
  not_get_or_head method = false ->
  StaticFile.file_not_modified pv sf environ = Ok false ->
  StaticFile.get_path_and_headers sf environ = (p, Some hs) ->
  StaticFile.serve pv os sf environ
  = Ok (Response "200 OK" hs
          (if String.eqb method "HEAD" then Ok Empty
           else StaticFile.open_body os environ p)).
Proof.
  intros Hm Hnot Hcond Hsel. unfold StaticFile.serve, getitem.
  rewrite Hm. cbn [mbind result_bind]. rewrite Hnot, Hcond.
  cbn [mbind result_bind]. by rewrite Hsel.
Qed.

Lemma serve_not_modified pv os sf (environ : environ) method :
  environ !! "REQUEST_METHOD" = Some method ->
  not_get_or_head method = false ->
  StaticFile.file_not_modified pv sf environ = Ok true ->
  StaticFile.serve pv os sf environ
  = Ok (Response "304 Not Modified" [] (Ok Empty)).
Proof.
  intros Hm Hnot Hcond. unfold StaticFile.serve, getitem.
  rewrite Hm. cbn [mbind result_bind]. by rewrite Hnot, Hcond.
Qed.

(** The conditional check, case by case. *)
Lemma file_not_modified_absent pv sf (environ : environ) :
  environ !! "HTTP_IF_MODIFIED_SINCE" = None ->
  StaticFile.file_not_modified pv sf environ = Ok false.
Proof. intros He. unfold StaticFile.file_not_modified. by rewrite He. Qed.

Lemma file_not_modified_exact pv sf (environ : environ) ims :
  environ !! "HTTP_IF_MODIFIED_SINCE" = Some ims ->
  Headers.get (StaticFile.headers sf) "Last-Modified" = Some ims ->
  StaticFile.file_not_modified pv sf environ = Ok true.
Proof.
  intros He Hlm. unfold StaticFile.file_not_modified. rewrite He, Hlm.
  by rewrite bool_decide_eq_true_2.
Qed.

Lemma file_not_modified_parse pv sf (environ : environ) ims :
  environ !! "HTTP_IF_MODIFIED_SINCE" = Some ims ->
  Headers.get (StaticFile.headers sf) "Last-Modified" <> Some ims ->
  StaticFile.file_not_modified pv sf environ
  = parsed_ge pv (parsedate ims) (StaticFile.mtime_tuple sf).
Proof.
  intros He Hlm. unfold StaticFile.file_not_modified. rewrite He.
  by rewrite bool_decide_eq_false_2.
Qed.

(** A date later than the modification time satisfies the condition, an
    earlier one does not. *)
Lemma file_not_modified_later pv sf (environ : environ) ims t :
  environ !! "HTTP_IF_MODIFIED_SINCE" = Some ims ->
  parsedate ims = Some t ->
  seq_lt (tm_date (StaticFile.mtime_tuple sf)) (tm_date t) = true ->
  StaticFile.file_not_modified pv sf environ = Ok true.
Proof.
  intros He Hp Hlt. unfold StaticFile.file_not_modified. rewrite He.
  case_bool_decide; [done|]. rewrite Hp. simpl.
  by rewrite tuple_ge_later_date.
Qed.

Lemma file_not_modified_earlier pv sf (environ : environ) ims t :
  environ !! "HTTP_IF_MODIFIED_SINCE" = Some ims ->
  Headers.get (StaticFile.headers sf) "Last-Modified" <> Some ims ->
  parsedate ims = Some t ->
  seq_lt (tm_date t) (tm_date (StaticFile.mtime_tuple sf)) = true ->
  StaticFile.file_not_modified pv sf environ = Ok false.
Proof.
  intros He Hlm Hp Hlt. rewrite (file_not_modified_parse _ _ _ ims) by done.
  rewrite Hp. simpl. by rewrite tuple_ge_earlier_date.
Qed.

(** Under Python 2 a value that does not parse leaves the condition
    unsatisfied. *)
Lemma file_not_modified_unparsable_py2 sf (environ : environ) ims :
  environ !! "HTTP_IF_MODIFIED_SINCE" = Some ims ->
  Headers.get (StaticFile.headers sf) "Last-Modified" <> Some ims ->
  parsedate ims = None ->
  StaticFile.file_not_modified Py2 sf environ = Ok false.
Proof.
  intros He Hlm Hp. rewrite (file_not_modified_parse _ _ _ ims) by done.
  by rewrite Hp.
Qed.

End Serving.

(** ** The dispatcher and the method check *)

Section Dispatch.
Context `{TimeLib} {A : Type}.
Implicit Types (wn : WhiteNoise.t A) (environ : environ).

(** C6.  A request whose path is in the catalogue, as a file or as a
    redirect, and whose method is neither GET nor HEAD is answered by the
    dispatcher itself: 405, the header [Allow: GET, HEAD], an empty body.
    It is not passed to the wrapped application. *)
Theorem unsupported_method_is_405 pv os wn environ url e method :
  environ !! "PATH_INFO" = Some url ->
  WhiteNoise.files wn !! url = Some e ->
  environ !! "REQUEST_METHOD" = Some method ->
  method <> "GET" -> method <> "HEAD" ->
  WhiteNoise.call pv os wn environ
  = Ok (WhiteNoise.Served
          (Response "405 Method Not Allowed" [("Allow", "GET, HEAD")] (Ok Empty))).
Proof.
  intros Hp He Hm Hg Hh.
  rewrite (call_entry _ _ _ _ url e) by done.
  rewrite (serve_entry_other_method _ _ _ _ method);
    [done|done|by apply not_get_or_head_other].
Qed.

(** C7.  A request whose path has no entry in the catalogue goes to the
    wrapped application with the environment as received, and the
    dispatcher returns what the application returned. *)
Theorem unknown_path_is_delegated pv os wn environ url :
  environ !! "PATH_INFO" = Some url ->
  WhiteNoise.files wn !! url = None ->
  WhiteNoise.call pv os wn environ
  = Ok (WhiteNoise.Downstream (WhiteNoise.application wn environ)).
Proof.
  intros Hp Hnone. unfold WhiteNoise.call, getitem. rewrite Hp.
  cbn [mbind result_bind]. by rewrite Hnone.
Qed.

(** C10.  The method check comes before the conditional check: a request
    for a catalogued file with a method other than GET and HEAD is answered
    405 even when its [If-Modified-Since] value is exactly the stored
    [Last-Modified] value, that is, even when the conditional check on its
    own is satisfied and a GET would be answered 304. *)
Theorem method_check_precedes_conditional pv os wn environ url sf method ims :
  environ !! "PATH_INFO" = Some url ->
  WhiteNoise.files wn !! url = Some (WhiteNoise.File sf) ->
  environ !! "REQUEST_METHOD" = Some method ->
  method <> "GET" -> method <> "HEAD" ->
  environ !! "HTTP_IF_MODIFIED_SINCE" = Some ims ->
  Headers.get (StaticFile.headers sf) "Last-Modified" = Some ims ->
  StaticFile.file_not_modified pv sf environ = Ok true
  /\ WhiteNoise.call pv os wn environ
     = Ok (WhiteNoise.Served
             (Response "405 Method Not Allowed" [("Allow", "GET, HEAD")] (Ok Empty))).
Proof.
  intros Hp He Hm Hg Hh Hims Hlm. split.
  - by apply (file_not_modified_exact _ _ _ ims).
  - rewrite (call_entry _ _ _ _ url (WhiteNoise.File sf)) by done.
    cbn [WhiteNoise.serve_entry]. unfold StaticFile.serve, getitem.
    rewrite Hm. cbn [mbind result_bind].
    by rewrite not_get_or_head_other.
Qed.

(** C2, on Python 3.  A GET or HEAD request for a catalogued file whose
    [If-Modified-Since] value differs from the stored [Last-Modified] value
    and does not parse as a date is not served: ordering [None] against the
    modification time raises [TypeError], which leaves the dispatcher. *)
Theorem unparsable_if_modified_since_raises os wn environ url sf method ims :
  environ !! "PATH_INFO" = Some url ->
  WhiteNoise.files wn !! url = Some (WhiteNoise.File sf) ->
  environ !! "REQUEST_METHOD" = Some method ->
  method = "GET" \/ method = "HEAD" ->
  environ !! "HTTP_IF_MODIFIED_SINCE" = Some ims ->
  Headers.get (StaticFile.headers sf) "Last-Modified" <> Some ims ->
  parsedate ims = None ->
  WhiteNoise.call Py3 os wn environ = Raise TypeError.
Proof.
  intros Hp He Hm Hgh Hims Hlm Hparse.
  rewrite (call_entry _ _ _ _ url (WhiteNoise.File sf)) by done.
  cbn [WhiteNoise.serve_entry]. unfold StaticFile.serve, getitem.
  rewrite Hm. cbn [mbind result_bind].
  rewrite not_get_or_head_get_head by done.
  rewrite (file_not_modified_parse _ _ _ ims) by done.
  by rewrite Hparse.
Qed.

(** Under Python 2 the same request is served: status 200. *)
Lemma unparsable_if_modified_since_py2 os wn environ url path imm cfg sf method ims :
  StaticFile.init os path imm cfg = Ok sf ->
  environ !! "PATH_INFO" = Some url ->
  WhiteNoise.files wn !! url = Some (WhiteNoise.File sf) ->
  environ !! "REQUEST_METHOD" = Some method ->
  method = "GET" \/ method = "HEAD" ->
  environ !! "HTTP_IF_MODIFIED_SINCE" = Some ims ->
  Headers.get (StaticFile.headers sf) "Last-Modified" <> Some ims ->
  parsedate ims = None ->
  exists r, WhiteNoise.call Py2 os wn environ = Ok (WhiteNoise.Served r)
            /\ status r = "200 OK".
Proof.
  intros Hinit Hp He Hm Hgh Hims Hlm Hparse.
  destruct (init_selects_headers os path imm cfg sf environ Hinit) as (p & hs & Hsel).
  rewrite (call_entry _ _ _ _ url (WhiteNoise.File sf)) by done.
  cbn [WhiteNoise.serve_entry].
  rewrite (serve_modified _ _ _ _ method p hs);
    [by eexists|done|by apply not_get_or_head_get_head| |done].
  by apply (file_not_modified_unparsable_py2 _ _ ims).
Qed.

(** C3, where the code departs from it.  With time functions of the
    documented shape, a GET or HEAD request for a catalogued file whose
    [If-Modified-Since] value parses to the very second of the file's
    modification time, but is not spelled exactly like the stored
    [Last-Modified] value, is answered 200 and not 304: the placeholder
    fields of the parsed tuple compare below the week day, year day and
    daylight flag of the modification time. *)
Theorem same_second_other_spelling_is_200 pv os wn environ url path imm cfg sf
    method ims t :
  documented_shape _ ->
  StaticFile.init os path imm cfg = Ok sf ->
  environ !! "PATH_INFO" = Some url ->
  WhiteNoise.files wn !! url = Some (WhiteNoise.File sf) ->
  environ !! "REQUEST_METHOD" = Some method ->
  method = "GET" \/ method = "HEAD" ->
  environ !! "HTTP_IF_MODIFIED_SINCE" = Some ims ->
  Headers.get (StaticFile.headers sf) "Last-Modified" <> Some ims ->
  parsedate ims = Some t ->
  tm_date t = tm_date (StaticFile.mtime_tuple sf) ->
  exists r, WhiteNoise.call pv os wn environ = Ok (WhiteNoise.Served r)
            /\ status r = "200 OK".
Proof.
  intros Hshape Hinit Hp He Hm Hgh Hims Hlm Hparse Hdate.
  destruct (init_selects_headers os path imm cfg sf environ Hinit) as (p & hs & Hsel).
  destruct (init_path os path imm cfg sf Hinit) as (st & _ & _ & Hmt & _).
  destruct (parsedate_unusable _ Hshape ims t Hparse) as (Hw & Hy & Hd).
  rewrite (call_entry _ _ _ _ url (WhiteNoise.File sf)) by done.
  cbn [WhiteNoise.serve_entry].
  rewrite (serve_modified _ _ _ _ method p hs);
    [by eexists|done|by apply not_get_or_head_get_head| |done].
  rewrite (file_not_modified_parse _ _ _ ims) by done.
  rewrite Hparse. cbn [parsed_ge]. f_equal.
  apply tuple_ge_same_date; try done; rewrite Hmt.
  - by apply gmtime_wday.
  - by apply gmtime_yday.
  - by apply gmtime_isdst.
Qed.

End Dispatch.

(** ** Conditional requests and the choice of variant *)

Section Variants.
Context `{TimeLib} {A : Type}.
Implicit Types (wn : WhiteNoise.t A) (environ : environ).

(** The parts of the conditional rule the code does follow. *)
Lemma exact_last_modified_is_304 pv os wn environ url sf method ims :
  environ !! "PATH_INFO" = Some url ->
  WhiteNoise.files wn !! url = Some (WhiteNoise.File sf) ->
  environ !! "REQUEST_METHOD" = Some method ->
  method = "GET" \/ method = "HEAD" ->
  environ !! "HTTP_IF_MODIFIED_SINCE" = Some ims ->
  Headers.get (StaticFile.headers sf) "Last-Modified" = Some ims ->
  WhiteNoise.call pv os wn environ
  = Ok (WhiteNoise.Served (Response "304 Not Modified" [] (Ok Empty))).
Proof.
  intros Hp He Hm Hgh Hims Hlm.
  rewrite (call_entry _ _ _ _ url (WhiteNoise.File sf)) by done.
  cbn [WhiteNoise.serve_entry].
  rewrite (serve_not_modified _ _ _ _ method);
    [done|done|by apply not_get_or_head_get_head|].
  by apply (file_not_modified_exact _ _ _ ims).
Qed.

Lemma later_date_is_304 pv os wn environ url sf method ims t :
  environ !! "PATH_INFO" = Some url ->
  WhiteNoise.files wn !! url = Some (WhiteNoise.File sf) ->
  environ !! "REQUEST_METHOD" = Some method ->
  method = "GET" \/ method = "HEAD" ->
  environ !! "HTTP_IF_MODIFIED_SINCE" = Some ims ->
  parsedate ims = Some t ->
  seq_lt (tm_date (StaticFile.mtime_tuple sf)) (tm_date t) = true ->
  WhiteNoise.call pv os wn environ
  = Ok (WhiteNoise.Served (Response "304 Not Modified" [] (Ok Empty))).
Proof.
  intros Hp He Hm Hgh Hims Hparse Hlt.
  rewrite (call_entry _ _ _ _ url (WhiteNoise.File sf)) by done.
  cbn [WhiteNoise.serve_entry].
  rewrite (serve_not_modified _ _ _ _ method);
    [done|done|by apply not_get_or_head_get_head|].
  by apply (file_not_modified_later _ _ _ ims t).
Qed.

Lemma earlier_date_is_200 pv os wn environ url path imm cfg sf method ims t :
  StaticFile.init os path imm cfg = Ok sf ->
  environ !! "PATH_INFO" = Some url ->
  WhiteNoise.files wn !! url = Some (WhiteNoise.File sf) ->
  environ !! "REQUEST_METHOD" = Some method ->
  method = "GET" \/ method = "HEAD" ->
  environ !! "HTTP_IF_MODIFIED_SINCE" = Some ims ->
  Headers.get (StaticFile.headers sf) "Last-Modified" <> Some ims ->
  parsedate ims = Some t ->
  seq_lt (tm_date t) (tm_date (StaticFile.mtime_tuple sf)) = true ->
  exists r, WhiteNoise.call pv os wn environ = Ok (WhiteNoise.Served r)
            /\ status r = "200 OK".
Proof.
  intros Hinit Hp He Hm Hgh Hims Hlm Hparse Hlt.
  destruct (init_selects_headers os path imm cfg sf environ Hinit) as (p & hs & Hsel).
  rewrite (call_entry _ _ _ _ url (WhiteNoise.File sf)) by done.
  cbn [WhiteNoise.serve_entry].
  rewrite (serve_modified _ _ _ _ method p hs);
    [by eexists|done|by apply not_get_or_head_get_head| |done].
  by apply (file_not_modified_earlier _ _ _ ims t).
Qed.

(** C4, amended.  A GET request for a file with a compressed sibling whose
    conditional check is not satisfied is answered 200.  When
    [Accept-Encoding] has the word [gzip], the body is the sibling and the
    headers are the stored compressed set, with [Content-Encoding: gzip] and
    the sibling's size as [Content-Length]; otherwise the body is the file
    itself and the headers are the stored plain set.  Both sets carry
    [Vary: Accept-Encoding]. *)
Theorem served_variant_follows_accept_encoding pv os wn environ url path imm cfg sf :
  StaticFile.init os path imm cfg = Ok sf ->
  os_path_isfile os (path +:+ ".gz") = true ->
  environ !! "PATH_INFO" = Some url ->
  WhiteNoise.files wn !! url = Some (WhiteNoise.File sf) ->
  environ !! "REQUEST_METHOD" = Some "GET" ->
  StaticFile.file_not_modified pv sf environ = Ok false ->
  exists gst gh,
    os_stat os (path +:+ ".gz") = Some gst
    /\ StaticFile.gzip_headers sf = Some gh
    /\ Headers.get gh "Content-Encoding" = Some "gzip"
    /\ Headers.get gh "Content-Length" = Some (Py.str (st_size gst))
    /\ Headers.get gh "Vary" = Some "Accept-Encoding"
    /\ Headers.get (StaticFile.headers sf) "Vary" = Some "Accept-Encoding"
    /\ WhiteNoise.call pv os wn environ
       = Ok (WhiteNoise.Served
               (if StaticFile.ACCEPT_GZIP_RE_search
                     (default EmptyString (environ !! "HTTP_ACCEPT_ENCODING"))
                then Response "200 OK" gh
                       (StaticFile.open_body os environ (path +:+ ".gz"))
                else Response "200 OK" (StaticFile.headers sf)
                       (StaticFile.open_body os environ path))).
Proof.
  intros Hinit Hgz Hp He Hm Hcond.
  destruct (init_path os path imm cfg sf Hinit) as (st & _ & Hpath & _).
  pose proof (init_gzip os path imm cfg sf Hinit) as Hg.
  change StaticFile.GZIP_SUFFIX with ".gz" in Hg. rewrite Hgz in Hg.
  destruct Hg as (gst & gh & Hst & Hgp & Hgh & Hce & Hcl & Hv & Hv').
  exists gst, gh. split_and!; try done.
  rewrite (call_entry _ _ _ _ url (WhiteNoise.File sf)) by done.
  cbn [WhiteNoise.serve_entry].
  destruct (StaticFile.ACCEPT_GZIP_RE_search _) eqn:Hae.
  - rewrite (serve_modified _ _ _ _ "GET" (path +:+ ".gz") gh); try done.
    unfold StaticFile.get_path_and_headers. rewrite Hgp, Hgh, Hae.
    by destruct path.
  - rewrite (serve_modified _ _ _ _ "GET" path (StaticFile.headers sf)); try done.
    unfold StaticFile.get_path_and_headers. rewrite Hgp, Hae, Hpath.
    by case_match.
Qed.

(** C9.  Whatever the configured [charset], a file whose MIME type starts
    with [text/] or is one of [application/javascript], [application/xml]
    gets the [Content-Type] parameter [charset] with the fixed value
    [utf-8]; the configured value is never read: changing it changes
    nothing in the descriptor. *)
Theorem charset_is_always_utf8 os path imm cfg sf mimetype :
  StaticFile.init os path imm cfg = Ok sf ->
  mimetype
  = StaticFile.or_else (fst (guess_type cfg path)) "application/octet-stream" ->
  Py.startswith mimetype "text/" = true
  \/ mimetype ∈ ["application/javascript"; "application/xml"] ->
  StaticFile.get_charset mimetype = Some "utf-8"
  /\ Headers.get (StaticFile.headers sf) "Content-Type"
     = Some (mimetype +:+ "; charset=" +:+ Py.dquote +:+ "utf-8" +:+ Py.dquote)
  /\ forall c, StaticFile.init os path imm (with_charset c cfg) = Ok sf.
Proof.
  intros Hinit -> Htext.
  assert (StaticFile.get_charset
            (StaticFile.or_else (guess_type cfg path).1 "application/octet-stream")
          = Some "utf-8") as Hcs.
  { unfold StaticFile.get_charset. destruct Htext as [-> | Hin]; [done|].
    rewrite (bool_decide_eq_true_2 _ Hin). by rewrite orb_true_r. }
  split_and!; [done| |by intros c; rewrite init_with_charset].
  rewrite (init_content_type os path imm cfg sf Hinit). cbn zeta.
  by rewrite Hcs.
Qed.

End Variants.

(** ** Strings: slices and suffixes *)

Lemma app_cons a s t : String a s +:+ t = String a (s +:+ t).
Proof. reflexivity. Qed.

Lemma app_assoc_str s t u : (s +:+ t) +:+ u = s +:+ t +:+ u.
Proof. induction s as [|a s IH]; [done|]. by rewrite !app_cons, IH. Qed.

Lemma length_app s t :
  String.length (s +:+ t) = (String.length s + String.length t)%nat.
Proof. induction s as [|a s IH]; [done|]. rewrite app_cons. simpl. by rewrite IH. Qed.

Lemma take_app s t : Py.take (String.length s) (s +:+ t) = s.
Proof. induction s as [|a s IH]; [done|]. rewrite app_cons. simpl. by rewrite IH. Qed.

Lemma drop_app s t : Py.drop (String.length s) (s +:+ t) = t.
Proof. induction s as [|a s IH]; [done|]. by rewrite app_cons. Qed.

Lemma endswith_app s t : Py.endswith (s +:+ t) t = true.
Proof.
  unfold Py.endswith. rewrite length_app.
  replace (String.length s + String.length t - String.length t)%nat
    with (String.length s) by lia.
  rewrite drop_app, String.eqb_refl, andb_true_r.
  apply Nat.leb_le. lia.
Qed.

Lemma slice_to_suffix s t :
  t <> EmptyString -> Py.slice_to (s +:+ t) (- Py.len t) = s.
Proof.
  intros Ht. unfold Py.slice_to, Py.len. rewrite length_app.
  assert (0 < String.length t)%nat by (destruct t; [done|simpl; lia]).
  rewrite (proj2 (Z.ltb_lt _ _)) by lia.
  replace (Z.to_nat _) with (String.length s) by lia.
  apply take_app.
Qed.

Lemma slice_to_suffix_slash s t :
  Py.slice_to (s +:+ "/" +:+ t) (- Py.len t - 1) = s.
Proof.
  replace (- Py.len t - 1) with (- Py.len ("/" +:+ t)).
  - by apply slice_to_suffix.
  - unfold Py.len. rewrite length_app. simpl. lia.
Qed.

Lemma slice_to_suffix_keep_slash s t :
  t <> EmptyString -> Py.slice_to (s +:+ "/" +:+ t) (- Py.len t) = s +:+ "/".
Proof. intros Ht. rewrite <- app_assoc_str. by apply slice_to_suffix. Qed.

Lemma endswith_app_slash s t : Py.endswith (s +:+ "/" +:+ t) t = true.
Proof. rewrite <- app_assoc_str. apply endswith_app. Qed.

Lemma app_longer s t : t <> EmptyString -> s <> s +:+ t.
Proof.
  intros Ht E. apply (f_equal String.length) in E. rewrite length_app in E.
  destruct t; [done|]. simpl in E. lia.
Qed.

(** ** The catalogue build *)

Section Catalogue.
Context `{TimeLib} {A : Type}.
Implicit Types (self wn : WhiteNoise.t A) (files : gmap string WhiteNoise.entry).

Lemma foldM_invariant {S X} (f : S -> X -> result S) (P : S -> Prop) :
  (forall s x s', P s -> f s x = Ok s' -> P s') ->
  forall l s s', P s -> WhiteNoise.foldM f s l = Ok s' -> P s'.
Proof.
  intros Hstep l. induction l as [|x l IH]; intros s s' Hs Hfold; simpl in Hfold.
  - by injection Hfold as <-.
  - destruct (f s x) as [s1|] eqn:E; [|done]. eauto.
Qed.

Lemma foldM_each {S X} (f : S -> X -> result S) (Q : X -> S -> Prop) :
  (forall s x s', f s x = Ok s' -> Q x s') ->
  (forall s x y s', Q y s -> f s x = Ok s' -> Q y s') ->
  forall l s s' x, x ∈ l -> WhiteNoise.foldM f s l = Ok s' -> Q x s'.
Proof.
  intros Hnew Hkeep l. induction l as [|y l IH]; intros s s' x Hin Hfold.
  - by apply elem_of_nil in Hin.
  - simpl in Hfold. destruct (f s y) as [s1|] eqn:E; [|done].
    cbn [mbind result_bind] in Hfold.
    apply elem_of_cons in Hin as [-> | Hin]; [|by eauto].
    apply (foldM_invariant f (Q y) (fun s0 x0 s0' => Hkeep s0 x0 y s0') l s1); eauto.
Qed.

Ltac step_static_file Hadd f :=
  match type of Hadd with
  | context [WhiteNoise.get_static_file ?os ?self ?p ?u] =>
      destruct (WhiteNoise.get_static_file os self p u) as [f|] eqn:?;
      cbn [mbind result_bind] in Hadd; [|discriminate Hadd]
  end.

(** One file never removes a key. *)
Lemma add_file_keeps os self root prefix dir_path filename files files' url :
  WhiteNoise.add_file os self root prefix dir_path filename files = Ok files' ->
  is_Some (files !! url) -> is_Some (files' !! url).
Proof.
  unfold WhiteNoise.add_file. intros Hadd Hsome.
  assert (forall k v (m : gmap string WhiteNoise.entry),
            is_Some (m !! url) -> is_Some (<[k := v]> m !! url)) as Hins.
  { intros k v m Hm. rewrite lookup_insert. by case_decide. }
  destruct (Py.endswith _ _); [destruct (Py.truthy _)|];
    cbn [mbind result_bind] in Hadd;
    repeat (let f := fresh "f" in step_static_file Hadd f);
    injection Hadd as <-; eauto.
Qed.

(** One file always writes the key of its own URL, with a descriptor built
    from the file itself. *)
Lemma add_file_registers os self root prefix dir_path filename files files' :
  WhiteNoise.add_file os self root prefix dir_path filename files = Ok files' ->
  exists f,
    files' !! WhiteNoise.url_of os root prefix dir_path filename = Some (WhiteNoise.File f)
    /\ StaticFile.path f = os_path_join os dir_path filename.
Proof.
  unfold WhiteNoise.add_file. intros Hadd.
  destruct (Py.endswith _ _); [destruct (Py.truthy _)|];
    cbn [mbind result_bind] in Hadd;
    repeat (let f := fresh "f" in step_static_file Hadd f);
    injection Hadd as <-;
    (eexists; split; [apply lookup_insert_eq|]);
    match goal with
    | E : WhiteNoise.get_static_file _ _ _ (WhiteNoise.url_of _ _ _ _ _) = Ok ?f
      |- StaticFile.path ?f = _ =>
        by destruct (init_path _ _ _ _ _ E) as (? & ? & ? & ?)
    end.
Qed.

Lemma add_files_registers os self root prefix followlinks wn
    dir_path dirnames filenames filename :
  WhiteNoise.add_files os self root prefix followlinks = Ok wn ->
  (dir_path, dirnames, filenames) ∈ os_walk os root followlinks ->
  filename ∈ filenames ->
  is_Some (WhiteNoise.files wn
           !! WhiteNoise.url_of os root (WhiteNoise.url_prefix prefix) dir_path filename).
Proof.
  unfold WhiteNoise.add_files. intros Hadd Hdir Hfile.
  destruct (WhiteNoise.foldM _ _ _) as [files|] eqn:Hfold; [|done].
  cbn [mbind result_bind] in Hadd. injection Hadd as <-.
  cbn [WhiteNoise.files].
  set (url := WhiteNoise.url_of _ _ _ _ _).
  set (inner := fun files filename =>
         WhiteNoise.add_file os self root (WhiteNoise.url_prefix prefix)
           dir_path filename files).
  refine (foldM_each _
            (fun d (files : gmap string WhiteNoise.entry) =>
               d = (dir_path, dirnames, filenames) -> is_Some (files !! url))
            _ _ _ _ _ _ Hdir Hfold eq_refl).
  - intros s [[d ds] fs] s' Hs [= -> -> ->].
    refine (foldM_each inner
              (fun name (files : gmap string WhiteNoise.entry) =>
                 name = filename -> is_Some (files !! url))
              _ _ _ _ _ _ Hfile Hs eq_refl).
    + intros s0 x s0' Hx ->.
      destruct (add_file_registers _ _ _ _ _ _ _ _ Hx) as (f & Hf & _).
      unfold url. rewrite Hf. eauto.
    + intros s0 x y s0' Hy Hx ->. eapply add_file_keeps; eauto.
  - intros s [[d ds] fs] y s' Hy Hs ->.
    refine (foldM_invariant _ (fun files => is_Some (files !! url)) _ _ _ _ (Hy eq_refl) Hs).
    intros s0 x s0' Hs0 Hx. eapply add_file_keeps; eauto.
Qed.

Lemma foldM_invariant_in {S X} (f : S -> X -> result S) (P : S -> Prop) (l : list X) :
  (forall s x s', x ∈ l -> P s -> f s x = Ok s' -> P s') ->
  forall s s', P s -> WhiteNoise.foldM f s l = Ok s' -> P s'.
Proof.
  induction l as [|x l IH]; intros Hstep s s' Hs Hfold; simpl in Hfold.
  - by injection Hfold as <-.
  - destruct (f s x) as [s1|] eqn:E; [|done]. cbn [mbind result_bind] in Hfold.
    apply (IH (fun s0 y s0' Hy => Hstep s0 y s0' (list_elem_of_further _ _ _ Hy)) s1);
      [|done].
    apply (Hstep s x); [apply list_elem_of_here|done|done].
Qed.

Lemma foldM_ok_each {S X} (f : S -> X -> result S) (l : list X) s s' x :
  WhiteNoise.foldM f s l = Ok s' -> x ∈ l -> exists s1 s2, f s1 x = Ok s2.
Proof.
  revert s. induction l as [|y l IH]; intros s Hfold Hx.
  - by apply elem_of_nil in Hx.
  - simpl in Hfold. destruct (f s y) as [s1|] eqn:E; [|done].
    cbn [mbind result_bind] in Hfold.
    apply elem_of_cons in Hx as [-> | Hx]; eauto.
Qed.

(** An invariant that one element establishes and every element keeps holds
    at the end of the loop. *)
Lemma foldM_from {S X} (f : S -> X -> result S) (Q : S -> Prop) (x : X) :
  (forall s s', f s x = Ok s' -> Q s') ->
  forall l,
    (forall s y s', y ∈ l -> Q s -> f s y = Ok s' -> Q s') ->
    forall s s', Q s \/ x ∈ l -> WhiteNoise.foldM f s l = Ok s' -> Q s'.
Proof.
  intros Hnew l. induction l as [|y l IH]; intros Hkeep s s' Hstart Hfold.
  - simpl in Hfold. injection Hfold as <-.
    destruct Hstart as [Hs | Hin]; [done|by apply elem_of_nil in Hin].
  - simpl in Hfold. destruct (f s y) as [s1|] eqn:E; [|done].
    cbn [mbind result_bind] in Hfold.
    apply (IH (fun s0 y0 s0' Hy0 => Hkeep s0 y0 s0' (list_elem_of_further _ _ _ Hy0))
              s1 s'); [|done].
    destruct Hstart as [Hs | Hin].
    + left. eapply Hkeep; [apply list_elem_of_here|done..].
    + apply elem_of_cons in Hin as [-> | Hin]; [left; by eapply Hnew|by right].
Qed.

(** One file writes the key of its own URL last, with the descriptor
    [StaticFile.__init__] builds from the file itself. *)
Lemma add_file_own os self root prefix dir_path filename files files' :
  WhiteNoise.add_file os self root prefix dir_path filename files = Ok files' ->
  exists f,
    WhiteNoise.get_static_file os self (os_path_join os dir_path filename)
      (WhiteNoise.url_of os root prefix dir_path filename) = Ok f
    /\ files' !! WhiteNoise.url_of os root prefix dir_path filename
       = Some (WhiteNoise.File f).
Proof.
  unfold WhiteNoise.add_file. intros Hadd.
  destruct (Py.endswith _ _); [destruct (Py.truthy _)|];
    cbn [mbind result_bind] in Hadd;
    repeat (let f := fresh "f" in step_static_file Hadd f);
    injection Hadd as <-;
    (eexists; split; [reflexivity|apply lookup_insert_eq]).
Qed.

(** One file leaves every key it does not assign as it was. *)
Lemma add_file_other_keys os self root prefix dir_path filename files files' key :
  WhiteNoise.add_file os self root prefix dir_path filename files = Ok files' ->
  key ∉ keys_written os (WhiteNoise.config self) root prefix dir_path filename ->
  files' !! key = files !! key.
Proof.
  unfold WhiteNoise.add_file, keys_written. intros Hadd Hkey.
  destruct (Py.endswith _ _); [destruct (Py.truthy _)|];
    cbn [mbind result_bind] in Hadd;
    repeat (let f := fresh "f" in step_static_file Hadd f);
    injection Hadd as <-;
    repeat (apply not_elem_of_cons in Hkey as [? Hkey]);
    by rewrite !lookup_insert_ne by done.
Qed.

(** Once a file has its own entry, each further file of the walk leaves it
    in place, writes it again, or is another file assigning the same key. *)
Lemma own_entry_step os self root prefix followlinks dir_path filename f
    d ds fs name files files' :
  WhiteNoise.get_static_file os self (os_path_join os dir_path filename)
    (WhiteNoise.url_of os root prefix dir_path filename) = Ok f ->
  (d, ds, fs) ∈ os_walk os root followlinks ->
  name ∈ fs ->
  WhiteNoise.add_file os self root prefix d name files = Ok files' ->
  (d, name) = (dir_path, filename)
  \/ files !! WhiteNoise.url_of os root prefix dir_path filename
     = Some (WhiteNoise.File f)
  \/ written_by_another os (WhiteNoise.config self) root followlinks prefix
       dir_path filename (WhiteNoise.url_of os root prefix dir_path filename) ->
  files' !! WhiteNoise.url_of os root prefix dir_path filename
  = Some (WhiteNoise.File f)
  \/ written_by_another os (WhiteNoise.config self) root followlinks prefix
       dir_path filename (WhiteNoise.url_of os root prefix dir_path filename).
Proof.
  intros Hf Hd Hname Hadd Hbefore.
  destruct (decide ((d, name) = (dir_path, filename))) as [Heq | Hne].
  - injection Heq as -> ->. left.
    destruct (add_file_own _ _ _ _ _ _ _ _ Hadd) as (f' & Hf' & Hentry).
    congruence.
  - destruct Hbefore as [Heq | [Hentry | Hother]]; [done| |by right].
    destruct (decide (WhiteNoise.url_of os root prefix dir_path filename
                      ∈ keys_written os (WhiteNoise.config self) root prefix d name))
      as [Hin | Hout].
    + right. by exists d, ds, fs, name.
    + left. by rewrite (add_file_other_keys _ _ _ _ _ _ _ _ _ Hadd Hout).
Qed.

(** In the finished catalogue the URL of a discovered file holds the
    descriptor built from that file, unless another file of the walk assigns
    the same key. *)
Lemma add_files_own_entry os self root prefix followlinks wn
    dir_path dirnames filenames filename :
  WhiteNoise.add_files os self root prefix followlinks = Ok wn ->
  (dir_path, dirnames, filenames) ∈ os_walk os root followlinks ->
  filename ∈ filenames ->
  exists f,
    WhiteNoise.get_static_file os self (os_path_join os dir_path filename)
      (WhiteNoise.url_of os root (WhiteNoise.url_prefix prefix) dir_path filename)
    = Ok f
    /\ (WhiteNoise.files wn
          !! WhiteNoise.url_of os root (WhiteNoise.url_prefix prefix) dir_path filename
        = Some (WhiteNoise.File f)
        \/ written_by_another os (WhiteNoise.config self) root followlinks
             (WhiteNoise.url_prefix prefix) dir_path filename
             (WhiteNoise.url_of os root (WhiteNoise.url_prefix prefix)
                dir_path filename)).
Proof.
  unfold WhiteNoise.add_files. intros Hadd Hdir Hfile.
  destruct (WhiteNoise.foldM _ _ _) as [files|] eqn:Hfold; [|done].
  cbn [mbind result_bind] in Hadd. injection Hadd as <-.
  cbn [WhiteNoise.files].
  destruct (foldM_ok_each _ _ _ _ _ Hfold Hdir) as (s1 & s2 & Hinner).
  destruct (foldM_ok_each _ _ _ _ _ Hinner Hfile) as (s3 & s4 & Hone).
  destruct (add_file_own _ _ _ _ _ _ _ _ Hone) as (f & Hf & _).
  exists f. split; [done|].
  set (url := WhiteNoise.url_of _ _ _ _ _) in *.
  set (Q := fun files : gmap string WhiteNoise.entry =>
         files !! url = Some (WhiteNoise.File f)
         \/ written_by_another os (WhiteNoise.config self) root followlinks
              (WhiteNoise.url_prefix prefix) dir_path filename url).
  refine (foldM_from _ Q (dir_path, dirnames, filenames) _ _ _ _ _
            (or_intror Hdir) Hfold).
  - intros s s' Hs.
    refine (foldM_from _ Q filename _ _ _ _ _ (or_intror Hfile) Hs).
    + intros s0 s0' Hs0. eapply own_entry_step; [done..|by left].
    + intros s0 y s0' Hy Hq Hs0. eapply own_entry_step; [done..|by right].
  - intros s [[d ds] fs] s' Hd Hq Hs.
    refine (foldM_invariant_in _ Q _ _ _ _ Hq Hs).
    intros s0 y s0' Hy Hq0 Hs0. eapply own_entry_step; [done..|by right].
Qed.

(** C1, amended.  The build skips no file: every file the walk finds, one
    whose name ends in [.gz] like any other, is given an entry under its own
    URL, and that entry is the descriptor [StaticFile.__init__] builds from
    the file itself.  It is written whenever the file is processed, and the
    finished catalogue holds it at that URL unless another file of the walk
    assigns the same key; either way the URL has an entry.  A [.gz] file
    is, besides, the compressed variant of the descriptor built for the path
    without the suffix: whenever [p.gz] is a file, the descriptor of [p] has
    it as [gzip_path]. *)
Theorem every_discovered_file_has_its_own_entry os self root prefix followlinks wn
    dir_path dirnames filenames filename :
  WhiteNoise.add_files os self root prefix followlinks = Ok wn ->
  (dir_path, dirnames, filenames) ∈ os_walk os root followlinks ->
  filename ∈ filenames ->
  (exists f,
     WhiteNoise.get_static_file os self (os_path_join os dir_path filename)
       (WhiteNoise.url_of os root (WhiteNoise.url_prefix prefix) dir_path filename)
     = Ok f
     /\ StaticFile.path f = os_path_join os dir_path filename
     /\ (forall files files',
          WhiteNoise.add_file os self root (WhiteNoise.url_prefix prefix)
            dir_path filename files = Ok files' ->
          files' !! WhiteNoise.url_of os root (WhiteNoise.url_prefix prefix)
                      dir_path filename
          = Some (WhiteNoise.File f))
     /\ (WhiteNoise.files wn
           !! WhiteNoise.url_of os root (WhiteNoise.url_prefix prefix) dir_path filename
         = Some (WhiteNoise.File f)
         \/ written_by_another os (WhiteNoise.config self) root followlinks
              (WhiteNoise.url_prefix prefix) dir_path filename
              (WhiteNoise.url_of os root (WhiteNoise.url_prefix prefix)
                 dir_path filename)))
  /\ is_Some (WhiteNoise.files wn
              !! WhiteNoise.url_of os root (WhiteNoise.url_prefix prefix)
                   dir_path filename)
  /\ forall p imm f,
       StaticFile.init os p imm (WhiteNoise.config self) = Ok f ->
       os_path_isfile os (p +:+ ".gz") = true ->
       StaticFile.gzip_path f = Some (p +:+ ".gz").
Proof.
  intros Hadd Hdir Hfile. split_and!.
  - destruct (add_files_own_entry _ _ _ _ _ _ _ _ _ _ Hadd Hdir Hfile)
      as (f & Hf & Hfinal).
    exists f. split_and!; [done| | |done].
    + by destruct (init_path _ _ _ _ _ Hf) as (? & ? & ? & ?).
    + intros files files' Hone.
      destruct (add_file_own _ _ _ _ _ _ _ _ Hone) as (f' & Hf' & Hentry).
      congruence.
  - by eapply add_files_registers.
  - intros p imm f Hinit Hgz. apply init_gzip in Hinit.
    change StaticFile.GZIP_SUFFIX with ".gz" in Hinit. rewrite Hgz in Hinit.
    by destruct Hinit as (? & ? & _ & -> & _).
Qed.

End Catalogue.

(** ** Index files *)

Section Index.
Context `{TimeLib} {A : Type}.
Implicit Types (self : WhiteNoise.t A) (files : gmap string WhiteNoise.entry).

(** X21.  What one index file writes.  For a file whose URL is [stem/index_file]
    the three keys [stem/index_file], [stem/] and [stem] hold, right after
    the file is processed, the file, the file again, and a redirect to
    [stem/] (or the file once more when [stem] is empty). *)
Lemma add_file_index os self root prefix dir_path filename files files' stem :
  index_file (WhiteNoise.config self) <> EmptyString ->
  WhiteNoise.url_of os root prefix dir_path filename
  = stem +:+ "/" +:+ index_file (WhiteNoise.config self) ->
  WhiteNoise.add_file os self root prefix dir_path filename files = Ok files' ->
  let is_the_file (e : option WhiteNoise.entry) :=
    exists f, e = Some (WhiteNoise.File f)
              /\ StaticFile.path f = os_path_join os dir_path filename in
  is_the_file (files' !! (stem +:+ "/" +:+ index_file (WhiteNoise.config self)))
  /\ is_the_file (files' !! (stem +:+ "/"))
  /\ if Py.truthy stem
     then files' !! stem = Some (WhiteNoise.Moved {| Redirect.path := stem +:+ "/" |})
     else is_the_file (files' !! stem).
Proof.
  intros Hidx Hurl. unfold WhiteNoise.add_file. rewrite Hurl.
  set (idx := index_file (WhiteNoise.config self)) in *.
  rewrite endswith_app_slash, slice_to_suffix_slash.
  rewrite slice_to_suffix_keep_slash by done.
  assert (stem +:+ "/" <> stem +:+ "/" +:+ idx) as Hne1.
  { rewrite <- app_assoc_str. by apply app_longer. }
  assert (stem <> stem +:+ "/" +:+ idx) as Hne2 by by apply app_longer.
  assert (stem <> stem +:+ "/") as Hne3 by by apply app_longer.
  intros Hadd. cbv zeta.
  assert (forall u f, WhiteNoise.get_static_file os self
                        (os_path_join os dir_path filename) u = Ok f ->
                      StaticFile.path f = os_path_join os dir_path filename) as Hpath.
  { intros u f E. by destruct (init_path _ _ _ _ _ E) as (? & ? & ? & ?). }
  destruct (Py.truthy stem); cbn [mbind result_bind] in Hadd;
    repeat match type of Hadd with
    | context [WhiteNoise.get_static_file ?os ?self ?p ?u] =>
        let f := fresh "f" in
        destruct (WhiteNoise.get_static_file os self p u) as [f|] eqn:?;
        cbn [mbind result_bind] in Hadd; [|discriminate Hadd]
    end;
    injection Hadd as <-;
    split_and!;
    repeat first [rewrite lookup_insert_eq | rewrite lookup_insert_ne by done];
    eauto.
Qed.

End Index.

(** ** Serving does not touch the descriptor *)

Section Immutability.
Context `{TimeLib}.

Lemma alloc_fresh (h : Store.heap) l q :
  is_Some (Store.lists h !! q) -> (Store.alloc h l).1 <> q.
Proof.
  intros Hq Heq. unfold Store.alloc in Heq. simpl in Heq.
  apply elem_of_dom in Hq. rewrite <- Heq in Hq.
  by apply is_fresh in Hq.
Qed.

(** Calling [start_response] on a list made for the call leaves every list
    that existed before, and every object, as it was. *)
Lemma respond_frame cb (h : Store.heap) status l ret :
  Store.objs (Store.respond cb h status l ret).1 = Store.objs h
  /\ forall q, is_Some (Store.lists h !! q) ->
       Store.lists (Store.respond cb h status l ret).1 !! q = Store.lists h !! q.
Proof.
  unfold Store.respond, Store.start_response.
  pose proof (alloc_fresh h l) as Hfresh.
  destruct (Store.alloc h l) as [p h1] eqn:E. simpl in *.
  unfold Store.alloc in E. injection E as <- <-. simpl.
  split; [done|]. intros q Hq.
  rewrite lookup_alter_ne, lookup_insert_ne; auto.
Qed.

Lemma snapshot_frame (h h' : Store.heap) self sf :
  Store.objs h' = Store.objs h ->
  (forall q, is_Some (Store.lists h !! q) ->
     Store.lists h' !! q = Store.lists h !! q) ->
  Store.snapshot h self = Some sf -> Store.snapshot h' self = Some sf.
Proof.
  intros Hobjs Hlists. unfold Store.snapshot. rewrite Hobjs.
  destruct (Store.objs h !! self) as [o|]; [|done]. simpl.
  destruct (Store.lists h !! Store.o_headers o) as [hs|] eqn:Ehs; [|done].
  rewrite Hlists by (by rewrite Ehs).
  rewrite Ehs. simpl.
  destruct (Store.o_gzip_headers o) as [p|]; [|done].
  destruct (Store.lists h !! p) as [gh|] eqn:Egh; [|done].
  rewrite Hlists by (by rewrite Egh). by rewrite Egh.
Qed.

Lemma respond_snapshot cb (h : Store.heap) status l ret self sf :
  Store.snapshot h self = Some sf ->
  Store.snapshot (Store.respond cb h status l ret).1 self = Some sf
  /\ (Store.respond cb h status l ret).2 = Ok (Response status l ret).
Proof.
  intros Hsnap. destruct (respond_frame cb h status l ret) as [Hobjs Hlists].
  split; [by eapply snapshot_frame|].
  unfold Store.respond. by destruct (Store.alloc h l).
Qed.

(** The stored object and its snapshot select the same variant. *)
Lemma select_snapshot (h : Store.heap) self o sf (environ : environ) path hl :
  Store.objs h !! self = Some o ->
  Store.snapshot h self = Some sf ->
  Store.get_path_and_headers o environ = (path, hl) ->
  match hl with
  | Some p => exists l, Store.lists h !! p = Some l
                /\ StaticFile.get_path_and_headers sf environ = (path, Some l)
  | None => StaticFile.get_path_and_headers sf environ = (path, None)
  end.
Proof.
  intros Eo Hsnap. unfold Store.snapshot in Hsnap. rewrite Eo in Hsnap.
  simpl in Hsnap.
  destruct (Store.lists h !! Store.o_headers o) as [hs|] eqn:Ehs; [|done].
  simpl in Hsnap.
  unfold Store.get_path_and_headers, StaticFile.get_path_and_headers.
  destruct (Store.o_gzip_headers o) as [q|] eqn:Eq; simpl in Hsnap.
  - destruct (Store.lists h !! q) as [gh|] eqn:Egh; [|done].
    injection Hsnap as <-. simpl.
    repeat case_match; intros Heq; simplify_eq; eauto.
  - injection Hsnap as <-. simpl.
    repeat case_match; intros Heq; simplify_eq; eauto.
Qed.

(** C8.  Serving a request for the descriptor stored at [self], whatever
    the outcome (405, 304, 200 for GET or HEAD, or an exception) and
    whatever the server's [start_response] does to the header list it is
    given, leaves the descriptor as it was: the plain and the compressed
    header lists, both paths and the modification time read the same
    afterwards.  The response is the one computed from those stored
    values. *)
Theorem serving_leaves_descriptor_unchanged cb pv os self (environ : environ)
    (h : Store.heap) sf :
  Store.snapshot h self = Some sf ->
  exists h' r,
    Store.serve cb pv os self environ h = Some (h', r)
    /\ Store.snapshot h' self = Some sf
    /\ Store.objs h' = Store.objs h
    /\ r = StaticFile.serve pv os sf environ.
Proof.
  intros Hsnap. unfold Store.serve. rewrite Hsnap.
  destruct (Store.objs h !! self) as [o|] eqn:Eo;
    [|by unfold Store.snapshot in Hsnap; rewrite Eo in Hsnap].
  simpl. unfold StaticFile.serve.
  assert (forall status l ret,
    exists h' r, Some (Store.respond cb h status l ret) = Some (h', r)
      /\ Store.snapshot h' self = Some sf
      /\ Store.objs h' = Store.objs h
      /\ r = Ok (Response status l ret)) as Hrespond.
  { intros status l ret.
    destruct (respond_snapshot cb h status l ret self sf Hsnap) as [Hs Hr].
    destruct (respond_frame cb h status l ret) as [Ho _].
    destruct (Store.respond cb h status l ret) as [h' r]. simpl in *.
    by exists h', r. }
  destruct (getitem environ "REQUEST_METHOD") as [method|e];
    cbn [mbind result_bind]; [|by exists h, (Raise e)].
  destruct (not_get_or_head method); [apply Hrespond|].
  destruct (StaticFile.file_not_modified pv sf environ) as [[|]|e];
    cbn [mbind result_bind]; [apply Hrespond| |by exists h, (Raise e)].
  destruct (Store.get_path_and_headers o environ) as [path hl] eqn:Esel.
  pose proof (select_snapshot h self o sf environ path hl Eo Hsnap Esel) as Hpure.
  destruct hl as [p|].
  - destruct Hpure as (l & El & ->). rewrite El. simpl. apply Hrespond.
  - rewrite Hpure. simpl. by exists h, (Raise AttributeError).
Qed.

End Immutability.

(** ** The properties on the fixture trees *)

(** C1, as stated, fails: with [foo.css] and [foo.css.gz] side by side in
    the root, the catalogue has an entry of its own under [/foo.css.gz], a
    descriptor of the compressed file. *)
Lemma gz_file_has_its_own_entry :
  build Fixture.styles "static" = Ok styles_catalogue
  /\ Py.endswith "foo.css.gz" StaticFile.GZIP_SUFFIX = true
  /\ WhiteNoise.files styles_catalogue !! "/foo.css.gz" = Some (WhiteNoise.File foo_css_gz)
  /\ StaticFile.path foo_css_gz = "static/foo.css.gz"
  /\ WhiteNoise.call Py3 Fixture.styles styles_catalogue
       (Fixture.request "GET" "/foo.css.gz" [])
     = Ok (WhiteNoise.Served
             (Response "200 OK" (StaticFile.headers foo_css_gz)
                (Ok (YieldFile "static/foo.css.gz")))).
Proof. split_and!; vm_compute; reflexivity. Qed.

Lemma every_discovered_file_witness :
  build Fixture.styles "static" = Ok styles_catalogue
  /\ (exists f,
        WhiteNoise.get_static_file Fixture.styles empty_catalogue
          (os_path_join Fixture.styles "static" "foo.css.gz")
          (WhiteNoise.url_of Fixture.styles "static" (WhiteNoise.url_prefix None)
             "static" "foo.css.gz")
        = Ok f
        /\ StaticFile.path f = os_path_join Fixture.styles "static" "foo.css.gz"
        /\ (forall files files',
             WhiteNoise.add_file Fixture.styles empty_catalogue "static"
               (WhiteNoise.url_prefix None) "static" "foo.css.gz" files = Ok files' ->
             files' !! WhiteNoise.url_of Fixture.styles "static"
                         (WhiteNoise.url_prefix None) "static" "foo.css.gz"
             = Some (WhiteNoise.File f))
        /\ (WhiteNoise.files styles_catalogue
              !! WhiteNoise.url_of Fixture.styles "static" (WhiteNoise.url_prefix None)
                   "static" "foo.css.gz"
            = Some (WhiteNoise.File f)
            \/ written_by_another Fixture.styles (WhiteNoise.config empty_catalogue)
                 "static" false (WhiteNoise.url_prefix None) "static" "foo.css.gz"
                 (WhiteNoise.url_of Fixture.styles "static" (WhiteNoise.url_prefix None)
                    "static" "foo.css.gz")))
  /\ is_Some (WhiteNoise.files styles_catalogue
              !! WhiteNoise.url_of Fixture.styles "static" (WhiteNoise.url_prefix None)
                   "static" "foo.css.gz")
  /\ forall p imm f,
       StaticFile.init Fixture.styles p imm (WhiteNoise.config empty_catalogue) = Ok f ->
       os_path_isfile Fixture.styles (p +:+ ".gz") = true ->
       StaticFile.gzip_path f = Some (p +:+ ".gz").
Proof.
  split; [vm_compute; reflexivity|].
  apply (every_discovered_file_has_its_own_entry Fixture.styles empty_catalogue
           "static" None false styles_catalogue
           "static" [] ["foo.css"; "foo.css.gz"] "foo.css.gz").
  - vm_compute; reflexivity.
  - apply list_elem_of_here.
  - apply list_elem_of_further, list_elem_of_here.
Defined.

(** On that tree no other file assigns the key [/foo.css.gz]: the entry of
    the finished catalogue is the descriptor of the compressed file. *)
Example foo_css_gz_is_written_once :
  keys_written Fixture.styles (WhiteNoise.config empty_catalogue) "static"
    (WhiteNoise.url_prefix None) "static" "foo.css" = ["/foo.css"]
  /\ keys_written Fixture.styles (WhiteNoise.config empty_catalogue) "static"
       (WhiteNoise.url_prefix None) "static" "foo.css.gz" = ["/foo.css.gz"]
  /\ WhiteNoise.get_static_file Fixture.styles empty_catalogue "static/foo.css.gz"
       "/foo.css.gz" = Ok foo_css_gz.
Proof. split_and!; vm_compute; reflexivity. Qed.

Lemma unparsable_if_modified_since_witness :
  WhiteNoise.call Py3 Fixture.styles styles_catalogue
    (Fixture.request "GET" "/foo.css" [("HTTP_IF_MODIFIED_SINCE", "garbage")])
  = Raise TypeError.
Proof.
  apply (unparsable_if_modified_since_raises Fixture.styles styles_catalogue _
           "/foo.css" foo_css "GET" "garbage").
  - vm_compute; reflexivity.
  - vm_compute; reflexivity.
  - vm_compute; reflexivity.
  - left; reflexivity.
  - vm_compute; reflexivity.
  - vm_compute; discriminate.
  - vm_compute; reflexivity.
Defined.

(** The same request under Python 2 is served. *)
Example unparsable_if_modified_since_on_py2 :
  WhiteNoise.call Py2 Fixture.styles styles_catalogue
    (Fixture.request "GET" "/foo.css" [("HTTP_IF_MODIFIED_SINCE", "garbage")])
  = Ok (WhiteNoise.Served
          (Response "200 OK" (StaticFile.headers foo_css)
             (Ok (YieldFile "static/foo.css")))).
Proof. vm_compute; reflexivity. Qed.

Lemma same_second_other_spelling_witness :
  Headers.get (StaticFile.headers foo_css) "Last-Modified"
  = Some "Thu, 01 Jan 2015 00:00:00 GMT"
  /\ tm_date <$> parsedate rfc850_new_year
     = Some (tm_date (StaticFile.mtime_tuple foo_css))
  /\ exists r,
       WhiteNoise.call Py3 Fixture.styles styles_catalogue
         (Fixture.request "GET" "/foo.css" [("HTTP_IF_MODIFIED_SINCE", rfc850_new_year)])
       = Ok (WhiteNoise.Served r)
       /\ status r = "200 OK".
Proof.
  split; [vm_compute; reflexivity|]. split; [vm_compute; reflexivity|].
  apply (same_second_other_spelling_is_200 Py3 Fixture.styles styles_catalogue _
           "/foo.css" "static/foo.css" false (WhiteNoise.CONFIG Fixture.guess_type)
           foo_css "GET" rfc850_new_year
           (TimeTuple 2015 1 1 0 0 0 0 1 (-1))).
  - apply ref_time_shape.
  - vm_compute; reflexivity.
  - vm_compute; reflexivity.
  - vm_compute; reflexivity.
  - vm_compute; reflexivity.
  - left; reflexivity.
  - vm_compute; reflexivity.
  - vm_compute; discriminate.
  - vm_compute; reflexivity.
  - vm_compute; reflexivity.
Defined.

(** The whole response on that request: the plain file, in full. *)
Example same_second_asctime_spelling :
  WhiteNoise.call Py3 Fixture.styles styles_catalogue
    (Fixture.request "HEAD" "/foo.css"
       [("HTTP_IF_MODIFIED_SINCE", "Thu Jan  1 00:00:00 2015")])
  = Ok (WhiteNoise.Served
          (Response "200 OK" (StaticFile.headers foo_css) (Ok Empty))).
Proof. vm_compute; reflexivity. Qed.

(** C4, as stated, fails: a conditional GET for a file with a compressed
    sibling, sent with [Accept-Encoding: gzip] and the stored
    [Last-Modified] value, is answered 304 with no header at all, so without
    [Vary], and with no file. *)
Lemma conditional_get_has_no_vary :
  StaticFile.gzip_path foo_css = Some "static/foo.css.gz"
  /\ StaticFile.ACCEPT_GZIP_RE_search "gzip" = true
  /\ WhiteNoise.call Py3 Fixture.styles styles_catalogue
       (Fixture.request "GET" "/foo.css"
          [("HTTP_ACCEPT_ENCODING", "gzip");
           ("HTTP_IF_MODIFIED_SINCE", "Thu, 01 Jan 2015 00:00:00 GMT")])
     = Ok (WhiteNoise.Served (Response "304 Not Modified" [] (Ok Empty)))
  /\ Headers.get [] "Vary" = None.
Proof. split_and!; vm_compute; reflexivity. Qed.

Lemma served_variant_witness :
  exists gst gh,
    os_stat Fixture.styles "static/foo.css.gz" = Some gst
    /\ StaticFile.gzip_headers foo_css = Some gh
    /\ Headers.get gh "Content-Encoding" = Some "gzip"
    /\ Headers.get gh "Content-Length" = Some (Py.str (st_size gst))
    /\ Headers.get gh "Vary" = Some "Accept-Encoding"
    /\ Headers.get (StaticFile.headers foo_css) "Vary" = Some "Accept-Encoding"
    /\ WhiteNoise.call Py3 Fixture.styles styles_catalogue
         (Fixture.request "GET" "/foo.css" [("HTTP_ACCEPT_ENCODING", "deflate, gzip")])
       = Ok (WhiteNoise.Served
               (if StaticFile.ACCEPT_GZIP_RE_search
                     (default EmptyString
                        (Fixture.request "GET" "/foo.css"
                           [("HTTP_ACCEPT_ENCODING", "deflate, gzip")]
                         !! "HTTP_ACCEPT_ENCODING"))
                then Response "200 OK" gh
                       (StaticFile.open_body Fixture.styles
                          (Fixture.request "GET" "/foo.css"
                             [("HTTP_ACCEPT_ENCODING", "deflate, gzip")])
                          "static/foo.css.gz")
                else Response "200 OK" (StaticFile.headers foo_css)
                       (StaticFile.open_body Fixture.styles
                          (Fixture.request "GET" "/foo.css"
                             [("HTTP_ACCEPT_ENCODING", "deflate, gzip")])
                          "static/foo.css"))).
Proof.
  apply (served_variant_follows_accept_encoding Py3 Fixture.styles styles_catalogue
           (Fixture.request "GET" "/foo.css" [("HTTP_ACCEPT_ENCODING", "deflate, gzip")])
           "/foo.css" "static/foo.css" false (WhiteNoise.CONFIG Fixture.guess_type)
           foo_css); vm_compute; reflexivity.
Defined.

(** The two variants on the fixture, in full. *)
Example gzip_accepted :
  WhiteNoise.call Py3 Fixture.styles styles_catalogue
    (Fixture.request "GET" "/foo.css" [("HTTP_ACCEPT_ENCODING", "deflate, gzip")])
  = Ok (WhiteNoise.Served
          (Response "200 OK"
             [("Last-Modified", "Thu, 01 Jan 2015 00:00:00 GMT");
              ("Content-Type", "text/css; charset=" +:+ Py.dquote +:+ "utf-8" +:+ Py.dquote);
              ("Cache-Control", "public, max-age=60");
              ("Access-Control-Allow-Origin", "*");
              ("Vary", "Accept-Encoding");
              ("Content-Encoding", "gzip");
              ("Content-Length", "300")]
             (Ok (YieldFile "static/foo.css.gz")))).
Proof. vm_compute; reflexivity. Qed.

Example gzip_not_accepted :
  WhiteNoise.call Py3 Fixture.styles styles_catalogue
    (Fixture.request "GET" "/foo.css" [("HTTP_ACCEPT_ENCODING", "bzip2, notgzip")])
  = Ok (WhiteNoise.Served
          (Response "200 OK"
             [("Last-Modified", "Thu, 01 Jan 2015 00:00:00 GMT");
              ("Content-Length", "1200");
              ("Content-Type", "text/css; charset=" +:+ Py.dquote +:+ "utf-8" +:+ Py.dquote);
              ("Cache-Control", "public, max-age=60");
              ("Access-Control-Allow-Origin", "*");
              ("Vary", "Accept-Encoding")]
             (Ok (YieldFile "static/foo.css")))).
Proof. vm_compute; reflexivity. Qed.

(** C5 on a directory without name clashes: [/docs/index.html] and
    [/docs/] are the file, [/docs] redirects to [/docs/]; the index file of
    the root is served under the empty path and under [/]. *)
Example index_expansion_on_docs :
  build Fixture.docs_only "site" = Ok docs_only_catalogue
  /\ WhiteNoise.files docs_only_catalogue !! "/docs/index.html"
     = Some (WhiteNoise.File (descriptor Fixture.docs_only "site/docs/index.html"))
  /\ WhiteNoise.files docs_only_catalogue !! "/docs/"
     = Some (WhiteNoise.File (descriptor Fixture.docs_only "site/docs/index.html"))
  /\ WhiteNoise.files docs_only_catalogue !! "/docs"
     = Some (WhiteNoise.Moved {| Redirect.path := "/docs/" |})
  /\ WhiteNoise.files docs_only_catalogue !! EmptyString
     = Some (WhiteNoise.File root_index)
  /\ WhiteNoise.files docs_only_catalogue !! "/" = Some (WhiteNoise.File root_index).
Proof. split_and!; vm_compute; reflexivity. Qed.

(** C5, where the code departs from it.  [site/docs/] holds [index.html]
    and [_index.html], listed in that order.  [_index.html] also ends with
    the index file name, so it is expanded like an index file, and the
    character dropped before the name is the underscore: the key [/docs/],
    one character shorter than [/docs/_], is written a second time.  In the
    finished catalogue [/docs/] is a redirect to [/docs/_], not the index
    file. *)
Theorem index_entry_overwritten_by_sibling :
  build Fixture.docs "site" = Ok docs_catalogue
  /\ WhiteNoise.url_of Fixture.docs "site" "/" "site/docs" "index.html"
     = "/docs" +:+ "/" +:+ index_file (WhiteNoise.config docs_catalogue)
  /\ WhiteNoise.files docs_catalogue !! "/docs/index.html"
     = Some (WhiteNoise.File docs_index)
  /\ WhiteNoise.files docs_catalogue !! "/docs"
     = Some (WhiteNoise.Moved {| Redirect.path := "/docs/" |})
  /\ WhiteNoise.files docs_catalogue !! "/docs/"
     = Some (WhiteNoise.Moved {| Redirect.path := "/docs/_" |})
  /\ WhiteNoise.call Py3 Fixture.docs docs_catalogue (Fixture.request "GET" "/docs/" [])
     = Ok (WhiteNoise.Served
             (Response "301 Moved Permanently" [("Location", "/docs/_")] (Ok Empty))).
Proof. split_and!; vm_compute; reflexivity. Qed.

Lemma unsupported_method_witness :
  WhiteNoise.call Py3 Fixture.styles styles_catalogue
    (Fixture.request "POST" "/foo.css" [])
  = Ok (WhiteNoise.Served
          (Response "405 Method Not Allowed" [("Allow", "GET, HEAD")] (Ok Empty)))
  /\ WhiteNoise.call Py2 Fixture.docs_only docs_only_catalogue
       (Fixture.request "DELETE" "/docs" [])
     = Ok (WhiteNoise.Served
             (Response "405 Method Not Allowed" [("Allow", "GET, HEAD")] (Ok Empty))).
Proof.
  split.
  - apply (unsupported_method_is_405 Py3 Fixture.styles styles_catalogue _
             "/foo.css" (WhiteNoise.File foo_css) "POST");
      vm_compute; (reflexivity || discriminate).
  - apply (unsupported_method_is_405 Py2 Fixture.docs_only docs_only_catalogue _
             "/docs" (WhiteNoise.Moved {| Redirect.path := "/docs/" |}) "DELETE");
      vm_compute; (reflexivity || discriminate).
Defined.

Lemma unknown_path_witness :
  WhiteNoise.call Py3 Fixture.styles styles_catalogue
    (Fixture.request "GET" "/nonexistent.js" [])
  = Ok (WhiteNoise.Downstream
          (Fixture.downstream (Fixture.request "GET" "/nonexistent.js" []))).
Proof.
  apply (unknown_path_is_delegated Py3 Fixture.styles styles_catalogue _
           "/nonexistent.js"); vm_compute; reflexivity.
Defined.

Lemma method_check_witness :
  StaticFile.file_not_modified Py3 foo_css
    (Fixture.request "POST" "/foo.css"
       [("HTTP_IF_MODIFIED_SINCE", "Thu, 01 Jan 2015 00:00:00 GMT")])
  = Ok true
  /\ WhiteNoise.call Py3 Fixture.styles styles_catalogue
       (Fixture.request "POST" "/foo.css"
          [("HTTP_IF_MODIFIED_SINCE", "Thu, 01 Jan 2015 00:00:00 GMT")])
     = Ok (WhiteNoise.Served
             (Response "405 Method Not Allowed" [("Allow", "GET, HEAD")] (Ok Empty))).
Proof.
  apply (method_check_precedes_conditional Py3 Fixture.styles styles_catalogue _
           "/foo.css" foo_css "POST" "Thu, 01 Jan 2015 00:00:00 GMT");
    vm_compute; (reflexivity || discriminate).
Defined.

Lemma charset_witness :
  charset latin1_config = "latin-1"
  /\ StaticFile.get_charset "text/css" = Some "utf-8"
  /\ Headers.get (StaticFile.headers foo_css) "Content-Type"
     = Some ("text/css" +:+ "; charset=" +:+ Py.dquote +:+ "utf-8" +:+ Py.dquote)
  /\ forall c, StaticFile.init Fixture.styles "static/foo.css" false
                 (with_charset c latin1_config) = Ok foo_css.
Proof.
  split; [reflexivity|].
  apply (charset_is_always_utf8 Fixture.styles "static/foo.css" false latin1_config
           foo_css "text/css").
  - vm_compute; reflexivity.
  - vm_compute; reflexivity.
  - left. vm_compute; reflexivity.
Defined.

Lemma serving_witness :
  Store.snapshot foo_css_store 1%positive = Some foo_css
  /\ exists h' r,
       Store.serve stamping_server Py3 Fixture.styles 1%positive
         (Fixture.request "GET" "/foo.css" [("HTTP_ACCEPT_ENCODING", "gzip")])
         foo_css_store = Some (h', r)
       /\ Store.snapshot h' 1%positive = Some foo_css
       /\ Store.objs h' = Store.objs foo_css_store
       /\ r = StaticFile.serve Py3 Fixture.styles foo_css
                (Fixture.request "GET" "/foo.css" [("HTTP_ACCEPT_ENCODING", "gzip")]).
Proof.
  split; [vm_compute; reflexivity|].
  apply (serving_leaves_descriptor_unchanged stamping_server Py3 Fixture.styles
           1%positive _ foo_css_store foo_css).
  vm_compute; reflexivity.
Defined.

(** On that store the server does change the list it was handed: after the
    call the new list holds the server's header, the descriptor's lists do
    not. *)
Example server_changes_only_its_copy :
  let env := Fixture.request "GET" "/foo.css" [] in
  (fun hr => (Store.lists hr.1 !! 2%positive, Store.lists hr.1 !! 4%positive))
    <$> Store.serve stamping_server Py3 Fixture.styles 1%positive env foo_css_store
  = Some (Some (StaticFile.headers foo_css),
          Some (StaticFile.headers foo_css ++ [("Server", "stamp")])).
Proof. vm_compute; reflexivity. Qed.

(** ** The header lists [StaticFile.__init__] stores, in full *)

Section BuiltHeaders.
Context `{TimeLib}.

Ltac open_init os path cfg st :=
  unfold StaticFile.init, stat;
  destruct (os_stat os path) as [st|] eqn:?;
  cbn [mbind result_bind]; [|discriminate];
  destruct (guess_type cfg path) as [mimetype encoding] eqn:?.

Lemma content_type_value (m : string) :
  Py.join "; "
    (m :: map (fun kv => Headers.formatparam (Py.replace "_" "-" kv.1) kv.2)
            (if StaticFile.opt_truthy (StaticFile.get_charset m)
             then [("charset", default EmptyString (StaticFile.get_charset m))]
             else []))
  = match StaticFile.get_charset m with
    | Some c => m +:+ "; charset=" +:+ Py.dquote +:+ c +:+ Py.dquote
    | None => m
    end.
Proof.
  unfold StaticFile.get_charset.
  destruct (Py.startswith m _ || bool_decide _); reflexivity.
Qed.

Lemma init_plain_headers os path imm cfg sf :
  StaticFile.init os path imm cfg = Ok sf ->
  exists st,
    os_stat os path = Some st
    /\ StaticFile.headers sf =
         [("Last-Modified", formatdate (st_mtime st));
          ("Content-Length", Py.str (st_size st));
          ("Content-Type",
           let m := StaticFile.or_else (guess_type cfg path).1
                      "application/octet-stream" in
           match StaticFile.get_charset m with
           | Some c => m +:+ "; charset=" +:+ Py.dquote +:+ c +:+ Py.dquote
           | None => m
           end)]
         ++ (if StaticFile.opt_truthy (guess_type cfg path).2
             then [("Content-Encoding", default EmptyString (guess_type cfg path).2)]
             else [])
         ++ match (if imm then Some StaticFile.FOREVER else max_age cfg) with
            | Some age => [("Cache-Control", "public, max-age=" +:+ Py.str age)]
            | None => []
            end
         ++ (if allow_all_origins cfg
             then [("Access-Control-Allow-Origin", "*")] else [])
         ++ (if os_path_isfile os (path +:+ ".gz")
             then [("Vary", "Accept-Encoding")] else []).
Proof.
  open_init os path cfg st. cbn [fst snd]. cbv zeta.
  unfold Headers.add_header. rewrite content_type_value.
  change StaticFile.GZIP_SUFFIX with ".gz".
  destruct (os_path_isfile os (path +:+ ".gz"));
    [destruct (os_stat os (path +:+ ".gz")) as [gst|];
     cbn [mbind result_bind]; [|discriminate]|];
    intros Hinit; injection Hinit as <-; exists st; (split; [done|]);
    cbn [StaticFile.headers];
    destruct (StaticFile.opt_truthy encoding), imm, (max_age cfg) as [age|],
      (allow_all_origins cfg); reflexivity.
Qed.

Lemma init_gzip_headers os path imm cfg sf :
  StaticFile.init os path imm cfg = Ok sf ->
  os_path_isfile os (path +:+ ".gz") = true ->
  exists st gst,
    os_stat os path = Some st
    /\ os_stat os (path +:+ ".gz") = Some gst
    /\ StaticFile.gzip_path sf = Some (path +:+ ".gz")
    /\ StaticFile.gzip_headers sf = Some (
         [("Last-Modified", formatdate (st_mtime st));
          ("Content-Type",
           let m := StaticFile.or_else (guess_type cfg path).1
                      "application/octet-stream" in
           match StaticFile.get_charset m with
           | Some c => m +:+ "; charset=" +:+ Py.dquote +:+ c +:+ Py.dquote
           | None => m
           end)]
         ++ match (if imm then Some StaticFile.FOREVER else max_age cfg) with
            | Some age => [("Cache-Control", "public, max-age=" +:+ Py.str age)]
            | None => []
            end
         ++ (if allow_all_origins cfg
             then [("Access-Control-Allow-Origin", "*")] else [])
         ++ [("Vary", "Accept-Encoding");
             ("Content-Encoding", "gzip");
             ("Content-Length", Py.str (st_size gst))]).
Proof.
  open_init os path cfg st. cbn [fst snd]. cbv zeta.
  unfold Headers.add_header. rewrite content_type_value.
  change StaticFile.GZIP_SUFFIX with ".gz".
  intros Hinit Hgz. rewrite Hgz in Hinit.
  destruct (os_stat os (path +:+ ".gz")) as [gst|];
    cbn [mbind result_bind] in Hinit; [|discriminate].
  injection Hinit as <-. exists st, gst. split_and!; [done..|].
  cbn [StaticFile.gzip_headers]. f_equal.
  destruct (StaticFile.opt_truthy encoding), imm, (max_age cfg) as [age|],
    (allow_all_origins cfg); reflexivity.
Qed.

(** X1.  The plain header list of a descriptor is exactly, and in this
    order: [Last-Modified] (the formatted modification time),
    [Content-Length] (the file size), [Content-Type] (the guessed type, or
    [application/octet-stream], with the charset parameter for text-like
    types), then, each only when it applies, [Content-Encoding] (the
    encoding [guess_type] reported), [Cache-Control] (ten years for an
    immutable file, else the configured [max_age], nothing when that is
    [None]), [Access-Control-Allow-Origin: *] (when [allow_all_origins]) and
    [Vary: Accept-Encoding] (when the [.gz] sibling exists). *)
Theorem plain_headers_in_full os path imm cfg sf :
  StaticFile.init os path imm cfg = Ok sf ->
  exists st,
    os_stat os path = Some st
    /\ StaticFile.headers sf =
         [("Last-Modified", formatdate (st_mtime st));
          ("Content-Length", Py.str (st_size st));
          ("Content-Type",
           let m := StaticFile.or_else (guess_type cfg path).1
                      "application/octet-stream" in
           match StaticFile.get_charset m with
           | Some c => m +:+ "; charset=" +:+ Py.dquote +:+ c +:+ Py.dquote
           | None => m
           end)]
         ++ (if StaticFile.opt_truthy (guess_type cfg path).2
             then [("Content-Encoding", default EmptyString (guess_type cfg path).2)]
             else [])
         ++ match (if imm then Some StaticFile.FOREVER else max_age cfg) with
            | Some age => [("Cache-Control", "public, max-age=" +:+ Py.str age)]
            | None => []
            end
         ++ (if allow_all_origins cfg
             then [("Access-Control-Allow-Origin", "*")] else [])
         ++ (if os_path_isfile os (path +:+ ".gz")
             then [("Vary", "Accept-Encoding")] else []).
Proof. apply init_plain_headers. Qed.

(** X2.  The compressed header list is the plain one with any
    [Content-Encoding] and the [Content-Length] taken out and, appended at
    the end in this order, [Content-Encoding: gzip] and the size of the
    [.gz] file as [Content-Length]. *)
Theorem gzip_headers_in_full os path imm cfg sf :
  StaticFile.init os path imm cfg = Ok sf ->
  os_path_isfile os (path +:+ ".gz") = true ->
  exists st gst,
    os_stat os path = Some st
    /\ os_stat os (path +:+ ".gz") = Some gst
    /\ StaticFile.gzip_path sf = Some (path +:+ ".gz")
    /\ StaticFile.gzip_headers sf = Some (
         [("Last-Modified", formatdate (st_mtime st));
          ("Content-Type",
           let m := StaticFile.or_else (guess_type cfg path).1
                      "application/octet-stream" in
           match StaticFile.get_charset m with
           | Some c => m +:+ "; charset=" +:+ Py.dquote +:+ c +:+ Py.dquote
           | None => m
           end)]
         ++ match (if imm then Some StaticFile.FOREVER else max_age cfg) with
            | Some age => [("Cache-Control", "public, max-age=" +:+ Py.str age)]
            | None => []
            end
         ++ (if allow_all_origins cfg
             then [("Access-Control-Allow-Origin", "*")] else [])
         ++ [("Vary", "Accept-Encoding");
             ("Content-Encoding", "gzip");
             ("Content-Length", Py.str (st_size gst))]).
Proof. apply init_gzip_headers. Qed.

End BuiltHeaders.

Section BuiltHeaderFacts.
Context `{TimeLib}.

(** X4.  The cache and cross-origin policy of a descriptor, in both header
    lists: [Cache-Control] is [public, max-age=315360000] (ten years) for an
    immutable file, [public, max-age=N] for the configured [max_age] N
    otherwise, and absent when that is [None];
    [Access-Control-Allow-Origin] is [*] when [allow_all_origins] is set and
    absent otherwise. *)
Theorem cache_and_origin_policy os path imm cfg sf hs :
  StaticFile.init os path imm cfg = Ok sf ->
  hs = StaticFile.headers sf \/ StaticFile.gzip_headers sf = Some hs ->
  Headers.get hs "Cache-Control"
  = (if imm then Some "public, max-age=315360000"
     else (fun age => "public, max-age=" +:+ Py.str age) <$> max_age cfg)
  /\ Headers.get hs "Access-Control-Allow-Origin"
     = (if allow_all_origins cfg then Some "*" else None).
Proof.
  intros Hinit Hhs.
  destruct (init_plain_headers os path imm cfg sf Hinit) as (st & Hst & Hplain).
  destruct Hhs as [-> | Hgz].
  - rewrite Hplain.
    destruct (StaticFile.opt_truthy _), imm, (max_age cfg) as [age|],
      (allow_all_origins cfg), (os_path_isfile os _); by split.
  - destruct (os_path_isfile os (path +:+ ".gz")) eqn:Hfile.
    + destruct (init_gzip_headers os path imm cfg sf Hinit Hfile)
        as (st' & gst & _ & _ & _ & Hfull).
      rewrite Hfull in Hgz. injection Hgz as <-.
      destruct imm, (max_age cfg) as [age|], (allow_all_origins cfg); by split.
    + pose proof (init_gzip os path imm cfg sf Hinit) as Hnone.
      change StaticFile.GZIP_SUFFIX with ".gz" in Hnone. rewrite Hfile in Hnone.
      destruct Hnone as [_ Hnone]. by rewrite Hnone in Hgz.
Qed.

(** X5.  Apart from [Content-Encoding] and [Content-Length], the compressed
    header list answers every header name as the plain list does: the
    validator, the type, the cache policy and [Vary] are the same for both
    variants. *)
Theorem gzip_headers_differ_in_two_names os path imm cfg sf gh name :
  StaticFile.init os path imm cfg = Ok sf ->
  StaticFile.gzip_headers sf = Some gh ->
  Py.lower name <> "content-encoding" ->
  Py.lower name <> "content-length" ->
  Headers.get gh name = Headers.get (StaticFile.headers sf) name.
Proof.
  unfold StaticFile.init, stat.
  destruct (os_stat os path) as [st|]; cbn [mbind result_bind]; [|discriminate].
  destruct (guess_type cfg path) as [mimetype encoding].
  destruct (os_path_isfile os _).
  - destruct (os_stat os (path +:+ _)) as [gst|];
      cbn [mbind result_bind]; [|discriminate].
    intros Hinit Hgh Hce Hcl. injection Hinit as <-.
    cbn [StaticFile.gzip_headers StaticFile.headers] in *.
    injection Hgh as <-. unfold Headers.items.
    rewrite get_setitem_other by (intros Heq; apply Hcl; by rewrite <- Heq).
    by rewrite get_setitem_other by (intros Heq; apply Hce; by rewrite <- Heq).
  - intros Hinit Hgh. injection Hinit as <-. done.
Qed.

(** X6.  No header name occurs twice, whatever the letter case, in the
    plain list and in the compressed list of a descriptor. *)
Theorem header_names_are_unique os path imm cfg sf hs :
  StaticFile.init os path imm cfg = Ok sf ->
  hs = StaticFile.headers sf \/ StaticFile.gzip_headers sf = Some hs ->
  NoDup (map (fun kv => Py.lower kv.1) hs).
Proof.
  intros Hinit Hhs.
  destruct (init_plain_headers os path imm cfg sf Hinit) as (st & Hst & Hplain).
  assert (forall l : list string,
            bool_decide (NoDup l) = true -> NoDup l) as Hdec.
  { intros l Hl. by apply bool_decide_eq_true_1 in Hl. }
  destruct Hhs as [-> | Hgz].
  - rewrite Hplain.
    destruct (StaticFile.opt_truthy _), imm, (max_age cfg) as [age|],
      (allow_all_origins cfg), (os_path_isfile os _);
      apply Hdec; vm_compute; reflexivity.
  - destruct (os_path_isfile os (path +:+ ".gz")) eqn:Hfile.
    + destruct (init_gzip_headers os path imm cfg sf Hinit Hfile)
        as (st' & gst & _ & _ & _ & Hfull).
      rewrite Hfull in Hgz. injection Hgz as <-.
      destruct imm, (max_age cfg) as [age|], (allow_all_origins cfg);
        apply Hdec; vm_compute; reflexivity.
    + pose proof (init_gzip os path imm cfg sf Hinit) as Hnone.
      change StaticFile.GZIP_SUFFIX with ".gz" in Hnone. rewrite Hfile in Hnone.
      destruct Hnone as [_ Hnone]. by rewrite Hnone in Hgz.
Qed.

End BuiltHeaderFacts.

(** ** Requests: what is the same for HEAD, and what can go wrong *)

Section Requests.
Context `{TimeLib} {A : Type}.
Implicit Types (wn : WhiteNoise.t A) (environ : environ).

Lemma file_not_modified_method pv sf environ method :
  StaticFile.file_not_modified pv sf (<["REQUEST_METHOD" := method]> environ)
  = StaticFile.file_not_modified pv sf environ.
Proof. unfold StaticFile.file_not_modified. by rewrite lookup_insert_ne. Qed.

Lemma get_path_and_headers_method sf environ method :
  StaticFile.get_path_and_headers sf (<["REQUEST_METHOD" := method]> environ)
  = StaticFile.get_path_and_headers sf environ.
Proof. unfold StaticFile.get_path_and_headers. by rewrite lookup_insert_ne. Qed.

(** X7.  HEAD is GET without the body.  For any entry and any environment,
    the answer to the environment with method HEAD is the answer to the same
    environment with method GET (the same status, the same header list, or
    the same exception) with the body left empty, and the file is not
    opened. *)
Theorem head_is_get_without_body pv os e environ :
  WhiteNoise.serve_entry pv os e (<["REQUEST_METHOD" := "HEAD"]> environ)
  = (r ← WhiteNoise.serve_entry pv os e (<["REQUEST_METHOD" := "GET"]> environ);
     Ok (Response (status r) (response_headers r) (Ok Empty))).
Proof.
  destruct e as [sf|rd]; cbn [WhiteNoise.serve_entry].
  - unfold StaticFile.serve, getitem. rewrite !lookup_insert_eq.
    cbn [mbind result_bind not_get_or_head String.eqb Ascii.eqb negb andb].
    rewrite !file_not_modified_method, !get_path_and_headers_method.
    destruct (StaticFile.file_not_modified pv sf environ) as [[|]|]; [done| |done].
    cbn [mbind result_bind].
    destruct (StaticFile.get_path_and_headers sf environ) as [p [hs|]]; done.
  - unfold Redirect.serve, getitem. rewrite !lookup_insert_eq.
    cbn [mbind result_bind]. rewrite !lookup_insert_ne by done.
    change (not_get_or_head "HEAD") with false.
    change (not_get_or_head "GET") with false. cbv iota.
    destruct (Py.truthy _); [|done].
    by destruct (environ !! "wsgi.url_scheme").
Qed.

Lemma get_or_head method :
  not_get_or_head method = false -> method = "GET" \/ method = "HEAD".
Proof.
  unfold not_get_or_head.
  destruct (String.eqb method "GET") eqn:Hget;
    [apply String.eqb_eq in Hget; by left|].
  destruct (String.eqb method "HEAD") eqn:Hhead;
    [apply String.eqb_eq in Hhead; by right|done].
Qed.

(** X8.  The body of every answer of the dispatcher.  A 405, 304 or 301
    answer and every answer to HEAD carries the empty body.  The one other
    answer is the 200 answer to GET for a file entry: its headers are the
    selected ones and its body is what opening the selected path gives, the
    opened file handed to the wrapper or the exception [open] raised.  So
    the body is an exception only for the selected path, and only when that
    path could not be opened. *)
Theorem body_is_empty_or_the_selected_file pv os wn environ r :
  WhiteNoise.call pv os wn environ = Ok (WhiteNoise.Served r) ->
  (app_iter r = Ok Empty
   /\ (status r = "405 Method Not Allowed"
       \/ status r = "304 Not Modified"
       \/ status r = "301 Moved Permanently"
       \/ (status r = "200 OK" /\ environ !! "REQUEST_METHOD" = Some "HEAD")))
  \/ (status r = "200 OK"
      /\ environ !! "REQUEST_METHOD" = Some "GET"
      /\ exists url sf p,
           environ !! "PATH_INFO" = Some url
           /\ WhiteNoise.files wn !! url = Some (WhiteNoise.File sf)
           /\ StaticFile.get_path_and_headers sf environ
              = (p, Some (response_headers r))
           /\ app_iter r = StaticFile.open_body os environ p
           /\ forall err, app_iter r = Raise err ->
                err = IOError p /\ os_open os p = false).
Proof.
  unfold WhiteNoise.call, getitem.
  destruct (environ !! "PATH_INFO") as [url|]; [|done]. cbn [mbind result_bind].
  destruct (WhiteNoise.files wn !! url) as [[sf|rd]|] eqn:Hentry; [| |done];
    cbn [WhiteNoise.serve_entry].
  - unfold StaticFile.serve, getitem.
    destruct (environ !! "REQUEST_METHOD") as [method|]; [|done].
    cbn [mbind result_bind].
    destruct (not_get_or_head method) eqn:Hmethod;
      [intros [= <-]; left; split; [done|by left]|].
    destruct (StaticFile.file_not_modified pv sf environ) as [[|]|];
      cbn [mbind result_bind]; [|  |done].
    { intros [= <-]. left. split; [done|]. right. by left. }
    destruct (StaticFile.get_path_and_headers sf environ) as [p [hs|]] eqn:Hsel;
      cbn [mbind result_bind from_option]; [|done].
    intros [= <-]. cbn [app_iter status response_headers].
    destruct (get_or_head _ Hmethod) as [-> | ->].
    + right. change (String.eqb "GET" "HEAD") with false. cbv iota.
      split_and!; [done..|]. exists url, sf, p. split_and!; [done..|].
      unfold StaticFile.open_body. destruct (os_open os p); [done|].
      by intros err [= <-].
    + left. change (String.eqb "HEAD" "HEAD") with true. cbv iota.
      split; [done|]. do 3 right. done.
  - unfold Redirect.serve, getitem.
    destruct (environ !! "REQUEST_METHOD") as [method|]; [|done].
    cbn [mbind result_bind].
    destruct (not_get_or_head method);
      [intros [= <-]; left; split; [done|by left]|].
    destruct (Py.truthy _); [destruct (environ !! "wsgi.url_scheme")|];
      cbn [mbind result_bind]; try done;
      intros [= <-]; left; (split; [done|]); right; right; by left.
Qed.

(** X9.  The exceptions of the dispatcher.  On a catalogue whose entries
    were built by [StaticFile.__init__], a call raises only: [KeyError] for
    [PATH_INFO] or [REQUEST_METHOD] missing from the environment; [KeyError]
    for [wsgi.url_scheme] missing when a redirect is to be answered and
    [Host] is not empty; and, on Python 3 only, [TypeError] for an
    [If-Modified-Since] value that does not parse. *)
Theorem call_raises_only pv os wn environ err :
  (forall url e, WhiteNoise.files wn !! url = Some e -> built_by_init os e) ->
  WhiteNoise.call pv os wn environ = Raise err ->
  (err = KeyError "PATH_INFO" /\ environ !! "PATH_INFO" = None)
  \/ (err = KeyError "REQUEST_METHOD" /\ environ !! "REQUEST_METHOD" = None)
  \/ (err = KeyError "wsgi.url_scheme"
      /\ environ !! "wsgi.url_scheme" = None
      /\ exists host, environ !! "HTTP_HOST" = Some host /\ host <> EmptyString)
  \/ (err = TypeError /\ pv = Py3
      /\ exists ims, environ !! "HTTP_IF_MODIFIED_SINCE" = Some ims
                     /\ parsedate ims = None).
Proof.
  intros Hbuilt. unfold WhiteNoise.call, getitem.
  destruct (environ !! "PATH_INFO") as [url|] eqn:Hurl;
    [|intros [= <-]; by left].
  cbn [mbind result_bind].
  destruct (WhiteNoise.files wn !! url) as [[sf|rd]|] eqn:He; [| |done];
    cbn [WhiteNoise.serve_entry].
  - destruct (Hbuilt url _ He) as (path & imm & cfg & Hinit).
    unfold StaticFile.serve, getitem.
    destruct (environ !! "REQUEST_METHOD") as [method|];
      [|intros [= <-]; right; by left].
    cbn [mbind result_bind].
    destruct (not_get_or_head method); [done|].
    destruct (StaticFile.file_not_modified pv sf environ) as [[|]|e] eqn:Hcond;
      cbn [mbind result_bind]; [done| |].
    + destruct (init_selects_headers os path imm cfg sf environ Hinit)
        as (p & hs & ->). done.
    + intros [= <-]. do 3 right.
      unfold StaticFile.file_not_modified in Hcond.
      destruct (environ !! "HTTP_IF_MODIFIED_SINCE") as [ims|]; [|done].
      case_bool_decide; [done|].
      destruct (parsedate ims) as [t|] eqn:Hparse; [done|].
      destruct pv; [done|]. injection Hcond as <-. eauto.
  - unfold Redirect.serve, getitem.
    destruct (environ !! "REQUEST_METHOD") as [method|];
      [|intros [= <-]; right; by left].
    cbn [mbind result_bind].
    destruct (not_get_or_head method); [done|].
    destruct (environ !! "HTTP_HOST") as [host|] eqn:Hhost; [|done].
    cbn [default from_option id].
    destruct (Py.truthy host) eqn:Htruthy; [|done].
    destruct (environ !! "wsgi.url_scheme"); [done|].
    cbn [mbind result_bind].
    intros [= <-]. do 2 right. left. split_and!; [done..|].
    exists host. split; [done|]. by destruct host.
Qed.

End Requests.

(** ** The [Accept-Encoding] test *)

Lemma prefix_split p s : String.prefix p s = true -> s = p +:+ Py.drop (String.length p) s.
Proof.
  revert s. induction p as [|c p IH]; intros [|d s]; simpl; try done.
  destruct (ascii_dec c d) as [<-|]; [|done].
  intros Hp. rewrite app_cons. f_equal. by apply IH.
Qed.

Lemma prefix_app p s : String.prefix p (p +:+ s) = true.
Proof.
  induction p as [|c p IH]; [by destruct s|].
  rewrite app_cons. simpl. by destruct (ascii_dec c c).
Qed.

Lemma search_gzip_iff prev s :
  StaticFile.search_gzip prev s = true
  <-> exists a b, s = a +:+ "gzip" +:+ b
                  /\ word_before prev a = false /\ word_after b = false.
Proof.
  revert prev. induction s as [|c r IH]; intros prev.
  - split; [done|]. intros ([|? a] & b & Hs & _); done.
  - cbn [StaticFile.search_gzip]. rewrite orb_true_iff, IH. split.
    + intros [Hhere | (a & b & -> & Hb & Ha)].
      * apply andb_true_iff in Hhere as [Hhere Hafter].
        apply andb_true_iff in Hhere as [Hprev Hpre].
        exists EmptyString, (Py.drop 4 (String c r)). split_and!.
        -- by apply (prefix_split "gzip").
        -- by destruct prev.
        -- unfold word_after. by destruct (from_option _ _ _).
      * exists (String c a), b. by rewrite app_cons.
    + intros (a & b & Hs & Hb & Ha). destruct a as [|d a].
      * left. change (EmptyString +:+ "gzip" +:+ b) with ("gzip" +:+ b) in Hs.
        rewrite Hs. simpl in Hb. subst prev.
        rewrite prefix_app. change (Py.drop 4 ("gzip" +:+ b)) with b.
        unfold word_after in Ha. by rewrite Ha.
      * right. rewrite app_cons in Hs. injection Hs as -> ->.
        by exists a, b.
Qed.

(** X10.  On an [Accept-Encoding] value made of ASCII characters the test
    succeeds exactly when the value can be cut as [a ++ gzip ++ b] where [a]
    does not end, and [b] does not begin, with a letter, a digit or an
    underscore.  So [gzip] is found inside a list and with parameters, and
    is not found inside a longer word. *)
Theorem accept_gzip_is_a_whole_word s :
  ascii_only s = true ->
  (StaticFile.ACCEPT_GZIP_RE_search s = true
   <-> exists a b, s = a +:+ "gzip" +:+ b
                   /\ word_before false a = false /\ word_after b = false).
Proof. intros _. apply search_gzip_iff. Qed.

Example accept_gzip_samples :
  map StaticFile.ACCEPT_GZIP_RE_search
    ["gzip"; "deflate, gzip"; "gzip;q=0.5, br"; "x-gzip"; "GZIP"; "gzipped";
     "notgzip"; "gzip2"; "_gzip"; EmptyString]
  = [true; true; true; true; false; false; false; false; false; false].
Proof. reflexivity. Qed.

(** ** The conditional check, exactly *)

Lemma seq_trichotomy (a b : list Z) :
  length a = length b ->
  seq_lt a b = true \/ a = b \/ seq_lt b a = true.
Proof.
  revert b. induction a as [|x a IH]; intros [|y b] Hl; simplify_eq/=; [by auto|].
  destruct (Z.compare_spec x y) as [-> | Hlt | Hgt].
  - rewrite Z.eqb_refl. destruct (IH b Hl) as [?|[->|?]]; auto.
  - left. rewrite (proj2 (Z.eqb_neq x y)) by lia. by apply Z.ltb_lt.
  - right; right. rewrite (proj2 (Z.eqb_neq y x)) by lia. by apply Z.ltb_lt.
Qed.

Section Conditional.
Context `{TimeLib}.

(** X11.  With time functions of the documented shape, the conditional
    check of a descriptor is satisfied exactly when the request has an
    [If-Modified-Since] value that either is, character for character, the
    stored [Last-Modified] value, or parses to a date whose year, month,
    day, hour, minute, second are, in this order, strictly later than the
    file's modification time. *)
Theorem conditional_check_exactly pv os path imm cfg sf (environ : environ) :
  documented_shape _ ->
  StaticFile.init os path imm cfg = Ok sf ->
  StaticFile.file_not_modified pv sf environ = Ok true
  <-> exists ims,
        environ !! "HTTP_IF_MODIFIED_SINCE" = Some ims
        /\ (Headers.get (StaticFile.headers sf) "Last-Modified" = Some ims
            \/ exists t, parsedate ims = Some t
                 /\ seq_lt (tm_date (StaticFile.mtime_tuple sf)) (tm_date t) = true).
Proof.
  intros Hshape Hinit.
  destruct (init_path os path imm cfg sf Hinit) as (st & _ & _ & Hmt & _).
  split.
  - unfold StaticFile.file_not_modified.
    destruct (environ !! "HTTP_IF_MODIFIED_SINCE") as [ims|]; [|done].
    case_bool_decide as Hlm; [by eauto|].
    destruct (parsedate ims) as [t|] eqn:Hparse; [|by destruct pv].
    cbn [parsed_ge]. intros [= Hge]. exists ims. split; [done|]. right.
    exists t. split; [done|].
    destruct (parsedate_unusable _ Hshape ims t Hparse) as (Hw & Hy & Hd).
    destruct (seq_trichotomy (tm_date (StaticFile.mtime_tuple sf)) (tm_date t))
      as [Hlt | [Heq | Hgt]]; [done|done| |].
    + rewrite tuple_ge_same_date in Hge; try done; rewrite Hmt.
      * by apply gmtime_wday.
      * by apply gmtime_yday.
      * by apply gmtime_isdst.
    + by rewrite tuple_ge_earlier_date in Hge.
  - intros (ims & Hims & [Hlm | (t & Hparse & Hlt)]).
    + by apply (file_not_modified_exact _ _ _ ims).
    + by apply (file_not_modified_later _ _ _ ims t).
Qed.

(** X12.  A file without a [.gz] sibling is served plain whatever
    [Accept-Encoding] says: the variant selected is the file itself with the
    plain header list, and that list has no [Vary] header. *)
Theorem without_sibling_always_plain os path imm cfg sf (environ : environ) :
  StaticFile.init os path imm cfg = Ok sf ->
  os_path_isfile os (path +:+ ".gz") = false ->
  StaticFile.get_path_and_headers sf environ = (path, Some (StaticFile.headers sf))
  /\ Headers.get (StaticFile.headers sf) "Vary" = None.
Proof.
  intros Hinit Hfile.
  destruct (init_path os path imm cfg sf Hinit) as (st & _ & Hpath & _).
  pose proof (init_gzip os path imm cfg sf Hinit) as Hg.
  change StaticFile.GZIP_SUFFIX with ".gz" in Hg. rewrite Hfile in Hg.
  destruct Hg as [Hgp _]. split.
  - unfold StaticFile.get_path_and_headers. by rewrite Hgp, Hpath.
  - destruct (init_plain_headers os path imm cfg sf Hinit) as (st' & _ & ->).
    rewrite Hfile.
    by destruct (StaticFile.opt_truthy _), imm, (max_age cfg) as [age|],
      (allow_all_origins cfg).
Qed.

(** X13.  A GET or HEAD request without [If-Modified-Since] for a
    descriptor is always answered 200, and the [Content-Length] sent is the
    size, as recorded when the catalogue was built, of the very file whose
    path is selected for the body: the file itself or its [.gz] sibling. *)
Theorem unconditional_request_reports_size {A} pv os (wn : WhiteNoise.t A)
    (environ : environ) url path imm cfg sf method :
  StaticFile.init os path imm cfg = Ok sf ->
  environ !! "PATH_INFO" = Some url ->
  WhiteNoise.files wn !! url = Some (WhiteNoise.File sf) ->
  environ !! "REQUEST_METHOD" = Some method ->
  method = "GET" \/ method = "HEAD" ->
  environ !! "HTTP_IF_MODIFIED_SINCE" = None ->
  exists p hs st,
    (p = path \/ p = path +:+ ".gz")
    /\ os_stat os p = Some st
    /\ Headers.get hs "Content-Length" = Some (Py.str (st_size st))
    /\ WhiteNoise.call pv os wn environ
       = Ok (WhiteNoise.Served
               (Response "200 OK" hs
                  (if String.eqb method "HEAD" then Ok Empty
                   else StaticFile.open_body os environ p))).
Proof.
  intros Hinit Hp He Hm Hgh Hims.
  rewrite (call_entry _ _ _ _ url (WhiteNoise.File sf)) by done.
  cbn [WhiteNoise.serve_entry].
  destruct (init_path os path imm cfg sf Hinit) as (st & Hst & Hpath & _).
  destruct (init_plain_headers os path imm cfg sf Hinit) as (st' & Hst' & Hplain).
  assert (st' = st) as -> by congruence.
  pose proof (init_gzip os path imm cfg sf Hinit) as Hg.
  change StaticFile.GZIP_SUFFIX with ".gz" in Hg.
  destruct (StaticFile.get_path_and_headers sf environ) as [p hdrs] eqn:Hsel.
  assert ((p = path /\ hdrs = Some (StaticFile.headers sf))
          \/ (p = path +:+ ".gz" /\ hdrs = StaticFile.gzip_headers sf
              /\ os_path_isfile os (path +:+ ".gz") = true)) as Hcases.
  { unfold StaticFile.get_path_and_headers in Hsel. rewrite Hpath in Hsel.
    destruct (os_path_isfile os (path +:+ ".gz")).
    - destruct Hg as (gst & gh & _ & Hgp & _). rewrite Hgp in Hsel.
      repeat case_match; simplify_eq; auto.
    - destruct Hg as [Hgp _]. rewrite Hgp in Hsel. simplify_eq. auto. }
  destruct Hcases as [[-> ->] | (-> & -> & Hfile)].
  - exists path, (StaticFile.headers sf), st. split_and!; [by left|done| |].
    + rewrite Hplain.
      by destruct (StaticFile.opt_truthy _), imm, (max_age cfg) as [age|],
        (allow_all_origins cfg), (os_path_isfile os _).
    + rewrite (serve_modified _ _ _ _ method path (StaticFile.headers sf));
        [done|done|by apply not_get_or_head_get_head| |done].
      by apply file_not_modified_absent.
  - rewrite Hfile in Hg.
    destruct Hg as (gst & gh & Hgst & _ & Hgh' & _ & Hcl & _).
    exists (path +:+ ".gz"), gh, gst. split_and!; [by right|done|done|].
    rewrite (serve_modified _ _ _ _ method (path +:+ ".gz") gh);
      [done|done|by apply not_get_or_head_get_head| |by rewrite Hsel, Hgh'].
    by apply file_not_modified_absent.
Qed.

End Conditional.

(** ** The URL prefix *)

Lemma rev_app_app s t acc :
  String.rev_app (s +:+ t) acc = String.rev_app t (String.rev_app s acc).
Proof.
  revert acc. induction s as [|c s IH]; intros acc; [done|].
  rewrite app_cons. simpl. apply IH.
Qed.

Lemma rev_snoc s c : String.rev (s +:+ String c EmptyString) = String c (String.rev s).
Proof. unfold String.rev. by rewrite rev_app_app. Qed.

Lemma lstrip_snoc c s :
  Py.lstrip c (s +:+ String c EmptyString)
  = if Py.truthy (Py.lstrip c s)
    then Py.lstrip c s +:+ String c EmptyString else EmptyString.
Proof.
  induction s as [|d s IH].
  - simpl. by rewrite Ascii.eqb_refl.
  - rewrite app_cons. simpl. destruct (Ascii.eqb c d); [done|].
    by rewrite app_cons.
Qed.

Lemma strip_cons c s : Py.strip c (String c s) = Py.strip c s.
Proof. unfold Py.strip. simpl. by rewrite Ascii.eqb_refl. Qed.

Lemma strip_snoc c s : Py.strip c (s +:+ String c EmptyString) = Py.strip c s.
Proof.
  unfold Py.strip. rewrite lstrip_snoc.
  destruct (Py.lstrip c s) as [|d q] eqn:E; [done|].
  cbn [Py.truthy]. rewrite rev_snoc. simpl. by rewrite Ascii.eqb_refl.
Qed.

(** X14.  The prefix every URL starts with begins and ends with a slash,
    and slashes written around the configured prefix make no difference: no
    prefix and the empty prefix give [/], and a prefix with one more slash
    in front or at the end gives the same result as without it. *)
Theorem url_prefix_ignores_outer_slashes (p : string) :
  WhiteNoise.url_prefix None = "/"
  /\ WhiteNoise.url_prefix (Some EmptyString) = "/"
  /\ WhiteNoise.url_prefix (Some ("/" +:+ p)) = WhiteNoise.url_prefix (Some p)
  /\ WhiteNoise.url_prefix (Some (p +:+ "/")) = WhiteNoise.url_prefix (Some p)
  /\ Py.startswith (WhiteNoise.url_prefix (Some p)) "/" = true
  /\ Py.endswith (WhiteNoise.url_prefix (Some p)) "/" = true.
Proof.
  split_and!; [done|done| | | |].
  - unfold WhiteNoise.url_prefix. cbn [default from_option id].
    change ("/" +:+ p) with (String "/" p). by rewrite strip_cons.
  - unfold WhiteNoise.url_prefix. cbn [default from_option id].
    by rewrite strip_snoc.
  - unfold WhiteNoise.url_prefix, Py.startswith.
    destruct (Py.truthy _); [apply (prefix_app "/")|done].
  - unfold WhiteNoise.url_prefix. destruct (Py.truthy _); [|done].
    rewrite <- app_assoc_str. apply endswith_app.
Qed.

(** ** What the build puts in the catalogue *)

Section Build.
Context `{TimeLib} {A : Type}.
Implicit Types (self wn : WhiteNoise.t A) (files : gmap string WhiteNoise.entry).

(** Each entry present after one file is an entry present before, a
    descriptor built from that file, or a redirect to a key that is present. *)
Lemma add_file_entries os self root prefix dir_path filename files files' url e :
  WhiteNoise.add_file os self root prefix dir_path filename files = Ok files' ->
  files' !! url = Some e ->
  files !! url = Some e
  \/ (exists u f, e = WhiteNoise.File f
        /\ WhiteNoise.get_static_file os self (os_path_join os dir_path filename) u
           = Ok f)
  \/ (exists target, e = WhiteNoise.Moved {| Redirect.path := target |}
        /\ is_Some (files' !! target)).
Proof.
  unfold WhiteNoise.add_file. intros Hadd.
  destruct (Py.endswith _ _); [destruct (Py.truthy _)|];
    cbn [mbind result_bind] in Hadd;
    repeat match type of Hadd with
    | context [WhiteNoise.get_static_file ?os ?self ?p ?u] =>
        let f := fresh "f" in
        destruct (WhiteNoise.get_static_file os self p u) as [f|] eqn:?;
        cbn [mbind result_bind] in Hadd; [|discriminate Hadd]
    end;
    injection Hadd as <-; intros Hurl;
    repeat (rewrite lookup_insert in Hurl; case_decide;
            [simplify_eq; first [by eauto 10 | right; right; eexists; split; [done|] ]|]);
    try by left.
  rewrite lookup_insert. case_decide; [by eauto|].
  rewrite lookup_insert_eq. eauto.
Qed.

End Build.

Section BuildFacts.
Context `{TimeLib} {A : Type}.
Implicit Types (self wn : WhiteNoise.t A) (files : gmap string WhiteNoise.entry).

(** The walk, seen as one loop over the file names with their directory. *)
Lemma add_files_fold os self root prefix followlinks wn (P : gmap string WhiteNoise.entry -> Prop) :
  WhiteNoise.add_files os self root prefix followlinks = Ok wn ->
  P (WhiteNoise.files self) ->
  (forall dir_path dirnames filenames filename files files',
     (dir_path, dirnames, filenames) ∈ os_walk os root followlinks ->
     filename ∈ filenames ->
     P files ->
     WhiteNoise.add_file os self root (WhiteNoise.url_prefix prefix)
       dir_path filename files = Ok files' ->
     P files') ->
  P (WhiteNoise.files wn)
  /\ WhiteNoise.config wn = WhiteNoise.config self
  /\ WhiteNoise.application wn = WhiteNoise.application self
  /\ WhiteNoise.is_immutable_file wn = WhiteNoise.is_immutable_file self.
Proof.
  unfold WhiteNoise.add_files. intros Hadd Hinit Hstep.
  destruct (WhiteNoise.foldM _ _ _) as [files|] eqn:Hfold; [|done].
  cbn [mbind result_bind] in Hadd. injection Hadd as <-.
  split; [|done]. cbn [WhiteNoise.files].
  refine (foldM_invariant_in _ P _ _ _ _ Hinit Hfold).
  intros s [[d ds] fs] s' Hd Hs Hinner.
  refine (foldM_invariant_in _ P _ _ _ _ Hs Hinner).
  intros s0 name s0' Hname Hs0 Hfile. by eapply Hstep.
Qed.

(** X15.  Adding a root only adds: every URL that had an entry before the
    walk still has one after it, and the configuration, the wrapped
    application and the immutability hook are the ones the dispatcher had. *)
Theorem add_files_only_adds os self root prefix followlinks wn :
  WhiteNoise.add_files os self root prefix followlinks = Ok wn ->
  dom (WhiteNoise.files self) ⊆ dom (WhiteNoise.files wn)
  /\ WhiteNoise.config wn = WhiteNoise.config self
  /\ WhiteNoise.application wn = WhiteNoise.application self
  /\ WhiteNoise.is_immutable_file wn = WhiteNoise.is_immutable_file self.
Proof.
  intros Hadd.
  apply (add_files_fold os self root prefix followlinks wn
           (fun files => dom (WhiteNoise.files self) ⊆ dom files) Hadd); [done|].
  intros d ds fs name files files' _ _ Hsub Hfile url Hurl.
  apply elem_of_dom. eapply add_file_keeps; [done|].
  apply elem_of_dom. by apply Hsub.
Qed.

Lemma add_files_origin os self root prefix followlinks wn url f :
  WhiteNoise.add_files os self root prefix followlinks = Ok wn ->
  WhiteNoise.files wn !! url = Some (WhiteNoise.File f) ->
  WhiteNoise.files self !! url = Some (WhiteNoise.File f)
  \/ exists file_path u,
       discovered os root followlinks file_path
       /\ StaticFile.init os file_path
            (WhiteNoise.is_immutable_file self file_path u) (WhiteNoise.config self)
          = Ok f.
Proof.
  intros Hadd. revert url f.
  apply (add_files_fold os self root prefix followlinks wn
           (fun files => forall url f,
              files !! url = Some (WhiteNoise.File f) ->
              WhiteNoise.files self !! url = Some (WhiteNoise.File f)
              \/ exists file_path u,
                   discovered os root followlinks file_path
                   /\ StaticFile.init os file_path
                        (WhiteNoise.is_immutable_file self file_path u)
                        (WhiteNoise.config self) = Ok f) Hadd); [by auto|].
  intros d ds fs name files files' Hd Hname IH Hfile url f Hurl.
  destruct (add_file_entries _ _ _ _ _ _ _ _ _ _ Hfile Hurl)
    as [Hold | [(u & f' & [= <-] & Hget) | (target & ? & _)]]; [by auto| |done].
  right. exists (os_path_join os d name), u. split; [|done].
  by exists d, ds, fs, name.
Qed.

(** X16.  The catalogue serves nothing but what the walk found: after
    adding a root to an empty catalogue, every file entry is the descriptor
    [StaticFile.__init__] built for a path the walk of that root listed,
    with the configuration of the dispatcher, and its [path] is that path. *)
Theorem catalogue_holds_only_discovered_files os self root prefix followlinks wn url f :
  WhiteNoise.files self = ∅ ->
  WhiteNoise.add_files os self root prefix followlinks = Ok wn ->
  WhiteNoise.files wn !! url = Some (WhiteNoise.File f) ->
  exists file_path u,
    discovered os root followlinks file_path
    /\ StaticFile.init os file_path
         (WhiteNoise.is_immutable_file self file_path u) (WhiteNoise.config self)
       = Ok f
    /\ StaticFile.path f = file_path.
Proof.
  intros Hempty Hadd Hurl.
  destruct (add_files_origin _ _ _ _ _ _ _ _ Hadd Hurl)
    as [Hold | (fp & u & Hfp & Hinit)].
  - by rewrite Hempty, lookup_empty in Hold.
  - exists fp, u. split_and!; [done..|].
    by destruct (init_path _ _ _ _ _ Hinit) as (? & ? & ? & ?).
Qed.

(** Every entry of a catalogue built from an empty one was made by
    [StaticFile.__init__] or is a redirect. *)
Lemma built_from_empty os self root prefix followlinks wn url e :
  WhiteNoise.files self = ∅ ->
  WhiteNoise.add_files os self root prefix followlinks = Ok wn ->
  WhiteNoise.files wn !! url = Some e -> built_by_init os e.
Proof.
  intros Hempty Hadd Hurl. destruct e as [f|r]; [|done].
  destruct (add_files_origin _ _ _ _ _ _ _ _ Hadd Hurl)
    as [Hold | (fp & u & Hfp & Hinit)].
  - by rewrite Hempty, lookup_empty in Hold.
  - cbn [built_by_init]. eauto.
Qed.

(** X17.  No redirect points outside the catalogue: if before the walk the
    target of every redirect had an entry, then so it is after the walk,
    for the old redirects and for the ones the index files added. *)
Theorem redirects_point_into_the_catalogue os self root prefix followlinks wn url r :
  (forall k r0, WhiteNoise.files self !! k = Some (WhiteNoise.Moved r0) ->
                is_Some (WhiteNoise.files self !! Redirect.path r0)) ->
  WhiteNoise.add_files os self root prefix followlinks = Ok wn ->
  WhiteNoise.files wn !! url = Some (WhiteNoise.Moved r) ->
  is_Some (WhiteNoise.files wn !! Redirect.path r).
Proof.
  intros Hself Hadd. revert url r.
  apply (add_files_fold os self root prefix followlinks wn
           (fun files => forall url r,
              files !! url = Some (WhiteNoise.Moved r) ->
              is_Some (files !! Redirect.path r)) Hadd); [done|].
  intros d ds fs name files files' Hd Hname IH Hfile url r Hurl.
  destruct (add_file_entries _ _ _ _ _ _ _ _ _ _ Hfile Hurl)
    as [Hold | [(u & f' & ? & _) | (target & [= ->] & Htarget)]]; [|done|done].
  eapply add_file_keeps; [done|]. by eapply IH.
Qed.

(** X18.  No file is skipped silently: when [add_files] returns, [stat]
    answered for every path the walk listed, and for the compressed sibling
    of each one that [isfile] reported.  So a listed file that has vanished
    by the time it is processed keeps the build from returning. *)
Theorem add_files_returns_only_if_stat_answered os self root prefix followlinks wn
    file_path :
  WhiteNoise.add_files os self root prefix followlinks = Ok wn ->
  discovered os root followlinks file_path ->
  is_Some (os_stat os file_path)
  /\ (os_path_isfile os (file_path +:+ ".gz") = true ->
      is_Some (os_stat os (file_path +:+ ".gz"))).
Proof.
  unfold WhiteNoise.add_files.
  intros Hadd (d & ds & fs & name & Hd & Hname & ->).
  destruct (WhiteNoise.foldM _ _ _) as [files|] eqn:Hfold; [|done].
  destruct (foldM_ok_each _ _ _ _ _ Hfold Hd) as (s1 & s2 & Hinner).
  destruct (foldM_ok_each _ _ _ _ _ Hinner Hname) as (s3 & s4 & Hfile).
  destruct (add_file_own _ _ _ _ _ _ _ _ Hfile) as (f & Hget & _).
  split.
  - destruct (init_path _ _ _ _ _ Hget) as (st & -> & _). by eexists.
  - intros Hgz. apply init_gzip in Hget.
    change StaticFile.GZIP_SUFFIX with ".gz" in Hget. rewrite Hgz in Hget.
    destruct Hget as (gst & _ & -> & _). by eexists.
Qed.

End BuildFacts.

(** ** Streaming a file with [yield_file] *)

Lemma take_drop n s : Py.take n s +:+ Py.drop n s = s.
Proof.
  revert s. induction n as [|n IH]; intros [|c s]; try done.
  simpl. rewrite app_cons. by rewrite IH.
Qed.

Lemma length_take n s : String.length (Py.take n s) = (n `min` String.length s)%nat.
Proof.
  revert s. induction n as [|n IH]; intros [|c s]; try done.
  simpl. by rewrite IH.
Qed.

Lemma length_drop n s : String.length (Py.drop n s) = (String.length s - n)%nat.
Proof. revert s. induction n as [|n IH]; intros [|c s]; try done. simpl. apply IH. Qed.

Lemma truthy_length s : Py.truthy s = true <-> (0 < String.length s)%nat.
Proof. destruct s; simpl; split; (done || lia). Qed.

Lemma block_size_pos : (0 < YieldFile.block_size)%nat.
Proof. unfold YieldFile.block_size, StaticFile.BLOCK_SIZE. lia. Qed.

#[local] Opaque YieldFile.block_size.

Lemma drain_running fuel f (started : bool) :
  (String.length (YieldFile.unread f) < fuel)%nat ->
  exists blocks,
    YieldFile.drain fuel (if started then YieldFile.Suspended f else YieldFile.Created f)
    = (blocks,
       YieldFile.Finished {| YieldFile.unread := EmptyString; YieldFile.closed := true |})
    /\ foldr String.append EmptyString blocks = YieldFile.unread f
    /\ Forall (fun b => b <> EmptyString
                        /\ (String.length b <= YieldFile.block_size)%nat) blocks
    /\ forall i b, blocks !! i = Some b ->
         String.length b = YieldFile.block_size \/ S i = length blocks.
Proof.
  revert f started. induction fuel as [|fuel IH]; intros f started Hfuel; [lia|].
  pose proof block_size_pos as Hn.
  assert (YieldFile.next (if started then YieldFile.Suspended f else YieldFile.Created f)
          = let block := Py.take YieldFile.block_size (YieldFile.unread f) in
            let f' := {| YieldFile.unread :=
                           Py.drop YieldFile.block_size (YieldFile.unread f);
                         YieldFile.closed := YieldFile.closed f |} in
            if Py.truthy block then (Some block, YieldFile.Suspended f')
            else (None, YieldFile.Finished (YieldFile.close f'))) as Hnext
    by by destruct started.
  cbn [YieldFile.drain]. rewrite Hnext. cbv zeta.
  destruct (Py.truthy (Py.take _ _)) eqn:Hblock.
  - apply truthy_length in Hblock. rewrite length_take in Hblock.
    destruct (IH {| YieldFile.unread :=
                      Py.drop YieldFile.block_size (YieldFile.unread f);
                    YieldFile.closed := YieldFile.closed f |} true)
      as (blocks & Hdrain & Hcat & Hsize & Hfull).
    { cbn [YieldFile.unread]. rewrite length_drop. lia. }
    cbn [YieldFile.unread] in *. rewrite Hdrain.
    eexists. split; [done|]. split_and!.
    + cbn [foldr]. rewrite Hcat. apply take_drop.
    + constructor; [|done]. split.
      * intros Hempty. apply (f_equal String.length) in Hempty.
        rewrite length_take in Hempty. simpl in Hempty. lia.
      * rewrite length_take. lia.
    + intros [|i] b Hb; simplify_eq/=.
      * rewrite length_take.
        destruct (decide (YieldFile.block_size <= String.length (YieldFile.unread f))%nat);
          [left; lia|right].
        assert (Py.drop YieldFile.block_size (YieldFile.unread f) = EmptyString) as Hrest.
        { destruct (Py.drop _ _) as [|c rest] eqn:E; [done|].
          apply (f_equal String.length) in E. rewrite length_drop in E.
          simpl in E. lia. }
        rewrite Hrest in Hcat. destruct blocks as [|b0 blocks]; [done|].
        apply Forall_cons in Hsize as [[Hb0 _] _].
        cbn [foldr] in Hcat. destruct b0; done.
      * destruct (Hfull i b Hb) as [?|?]; [by left|right; lia].
  - exists []. split_and!; [| |done|done].
    + assert (YieldFile.unread f = EmptyString) as Hempty.
      { destruct (YieldFile.unread f) as [|c s] eqn:E; [done|].
        destruct YieldFile.block_size eqn:?; [lia|done]. }
      unfold YieldFile.close. cbn [YieldFile.unread]. rewrite Hempty.
      by destruct YieldFile.block_size eqn:?.
    + cbn [foldr]. destruct (YieldFile.unread f) as [|c s] eqn:E; [done|].
      destruct YieldFile.block_size eqn:?; [lia|done].
Qed.

(** X19.  Iterated to its end, [yield_file] hands over the whole file and
    closes it: given one turn more than the file has bytes, the iteration
    finishes with nothing left unread and the file closed; the blocks, put
    end to end, are the bytes of the file; no block is empty or longer than
    [BLOCK_SIZE]; and every block but the last is exactly [BLOCK_SIZE]
    bytes. *)
Theorem yield_file_streams_the_whole_file fuel f :
  (String.length (YieldFile.unread f) < fuel)%nat ->
  exists blocks,
    YieldFile.drain fuel (YieldFile.Created f)
    = (blocks,
       YieldFile.Finished {| YieldFile.unread := EmptyString; YieldFile.closed := true |})
    /\ foldr String.append EmptyString blocks = YieldFile.unread f
    /\ Forall (fun b => b <> EmptyString
                        /\ (String.length b <= YieldFile.block_size)%nat) blocks
    /\ forall i b, blocks !! i = Some b ->
         String.length b = YieldFile.block_size \/ S i = length blocks.
Proof. intros Hfuel. by apply (drain_running fuel f false). Qed.

Lemma drain_started fuel g :
  match g with
  | YieldFile.Created _ => False
  | YieldFile.Suspended _ => True
  | YieldFile.Finished f => YieldFile.closed f = true
  end ->
  match (YieldFile.drain fuel g).2 with
  | YieldFile.Created _ => False
  | YieldFile.Suspended _ => True
  | YieldFile.Finished f => YieldFile.closed f = true
  end.
Proof.
  revert g. induction fuel as [|fuel IH]; intros g Hg; [done|].
  cbn [YieldFile.drain]. destruct g as [f|f|f]; [done| |done].
  cbn [YieldFile.next YieldFile.read]. destruct (Py.truthy _); [|done].
  specialize (IH (YieldFile.Suspended
                    {| YieldFile.unread := Py.drop YieldFile.block_size (YieldFile.unread f);
                       YieldFile.closed := YieldFile.closed f |}) I).
  by destruct (YieldFile.drain fuel _).
Qed.

(** X20.  Abandoning the iteration.  Once the consumer has asked for at
    least one block, closing the generator leaves the file closed, however
    many blocks were taken.  A generator that is closed before its first
    turn never enters its [try] block: the file is left exactly as it was
    handed over, still open. *)
Theorem closing_the_generator_closes_a_started_file turns f :
  YieldFile.closed
    (YieldFile.file_of
       (YieldFile.gen_close (YieldFile.drain (S turns) (YieldFile.Created f)).2))
  = true
  /\ YieldFile.file_of (YieldFile.gen_close (YieldFile.Created f)) = f.
Proof.
  split; [|done].
  cbn [YieldFile.drain YieldFile.next YieldFile.read].
  destruct (Py.truthy _); [|done].
  pose proof (drain_started turns
                (YieldFile.Suspended
                   {| YieldFile.unread := Py.drop YieldFile.block_size (YieldFile.unread f);
                      YieldFile.closed := YieldFile.closed f |}) I) as Hstate.
  destruct (YieldFile.drain turns _) as [blocks g]. cbn [snd] in *.
  by destruct g.
Qed.

(** ** The further properties on the fixture trees *)

Lemma plain_headers_witness :
  exists st,
    os_stat Fixture.styles "static/foo.css.gz" = Some st
    /\ StaticFile.headers foo_css_gz =
         [("Last-Modified", formatdate (st_mtime st));
          ("Content-Length", Py.str (st_size st));
          ("Content-Type",
           let m := StaticFile.or_else
                      (guess_type (WhiteNoise.CONFIG Fixture.guess_type)
                         "static/foo.css.gz").1
                      "application/octet-stream" in
           match StaticFile.get_charset m with
           | Some c => m +:+ "; charset=" +:+ Py.dquote +:+ c +:+ Py.dquote
           | None => m
           end)]
         ++ (if StaticFile.opt_truthy
                  (guess_type (WhiteNoise.CONFIG Fixture.guess_type)
                     "static/foo.css.gz").2
             then [("Content-Encoding",
                    default EmptyString
                      (guess_type (WhiteNoise.CONFIG Fixture.guess_type)
                         "static/foo.css.gz").2)]
             else [])
         ++ match (if false then Some StaticFile.FOREVER
                   else max_age (WhiteNoise.CONFIG Fixture.guess_type)) with
            | Some age => [("Cache-Control", "public, max-age=" +:+ Py.str age)]
            | None => []
            end
         ++ (if allow_all_origins (WhiteNoise.CONFIG Fixture.guess_type)
             then [("Access-Control-Allow-Origin", "*")] else [])
         ++ (if os_path_isfile Fixture.styles ("static/foo.css.gz" +:+ ".gz")
             then [("Vary", "Accept-Encoding")] else []).
Proof.
  apply (plain_headers_in_full Fixture.styles "static/foo.css.gz" false
           (WhiteNoise.CONFIG Fixture.guess_type) foo_css_gz).
  vm_compute; reflexivity.
Defined.

Lemma gzip_headers_witness :
  exists st gst,
    os_stat Fixture.styles "static/foo.css" = Some st
    /\ os_stat Fixture.styles ("static/foo.css" +:+ ".gz") = Some gst
    /\ StaticFile.gzip_path foo_css = Some ("static/foo.css" +:+ ".gz")
    /\ StaticFile.gzip_headers foo_css = Some (
         [("Last-Modified", formatdate (st_mtime st));
          ("Content-Type",
           let m := StaticFile.or_else
                      (guess_type (WhiteNoise.CONFIG Fixture.guess_type)
                         "static/foo.css").1
                      "application/octet-stream" in
           match StaticFile.get_charset m with
           | Some c => m +:+ "; charset=" +:+ Py.dquote +:+ c +:+ Py.dquote
           | None => m
           end)]
         ++ match (if false then Some StaticFile.FOREVER
                   else max_age (WhiteNoise.CONFIG Fixture.guess_type)) with
            | Some age => [("Cache-Control", "public, max-age=" +:+ Py.str age)]
            | None => []
            end
         ++ (if allow_all_origins (WhiteNoise.CONFIG Fixture.guess_type)
             then [("Access-Control-Allow-Origin", "*")] else [])
         ++ [("Vary", "Accept-Encoding");
             ("Content-Encoding", "gzip");
             ("Content-Length", Py.str (st_size gst))]).
Proof.
  apply (gzip_headers_in_full Fixture.styles "static/foo.css" false
           (WhiteNoise.CONFIG Fixture.guess_type) foo_css);
    vm_compute; reflexivity.
Defined.

(** The same lists, written out. *)
Example foo_css_gz_headers :
  StaticFile.headers foo_css_gz
  = [("Last-Modified", "Thu, 01 Jan 2015 00:00:00 GMT");
     ("Content-Length", "300");
     ("Content-Type", "text/css; charset=" +:+ Py.dquote +:+ "utf-8" +:+ Py.dquote);
     ("Content-Encoding", "gzip");
     ("Cache-Control", "public, max-age=60");
     ("Access-Control-Allow-Origin", "*")].
Proof. vm_compute; reflexivity. Qed.

(** A file that vanished between the walk and [stat] stops the build. *)
Example vanished_file_stops_the_build :
  build vanished "static" = Raise (OSError "static/gone.css").
Proof. vm_compute; reflexivity. Qed.

Lemma cache_and_origin_witness :
  Headers.get (StaticFile.headers foo_css) "Cache-Control"
  = (if false then Some "public, max-age=315360000"
     else (fun age => "public, max-age=" +:+ Py.str age)
            <$> max_age (WhiteNoise.CONFIG Fixture.guess_type))
  /\ Headers.get (StaticFile.headers foo_css) "Access-Control-Allow-Origin"
     = (if allow_all_origins (WhiteNoise.CONFIG Fixture.guess_type)
        then Some "*" else None).
Proof.
  apply (cache_and_origin_policy Fixture.styles "static/foo.css" false
           (WhiteNoise.CONFIG Fixture.guess_type) foo_css).
  - vm_compute; reflexivity.
  - left; reflexivity.
Defined.

(** An immutable file under a configuration without [max_age] and without
    the cross-origin header. *)
Example immutable_file_headers :
  (fun f => (Headers.get (StaticFile.headers f) "Cache-Control",
             Headers.get (StaticFile.headers f) "Access-Control-Allow-Origin"))
    <$> StaticFile.init Fixture.docs_only "site/index.html" true immutable_no_cors
  = Ok (Some "public, max-age=315360000", None)
  /\ (fun f => Headers.get (StaticFile.headers f) "Cache-Control")
       <$> StaticFile.init Fixture.docs_only "site/index.html" false immutable_no_cors
     = Ok None.
Proof. split; vm_compute; reflexivity. Qed.

Lemma gzip_headers_differ_witness :
  Headers.get (default [] (StaticFile.gzip_headers foo_css)) "last-modified"
  = Headers.get (StaticFile.headers foo_css) "last-modified".
Proof.
  apply (gzip_headers_differ_in_two_names Fixture.styles "static/foo.css" false
           (WhiteNoise.CONFIG Fixture.guess_type) foo_css);
    vm_compute; (reflexivity || discriminate).
Defined.

Lemma header_names_witness :
  NoDup (map (fun kv => Py.lower kv.1) (default [] (StaticFile.gzip_headers foo_css))).
Proof.
  apply (header_names_are_unique Fixture.styles "static/foo.css" false
           (WhiteNoise.CONFIG Fixture.guess_type) foo_css).
  - vm_compute; reflexivity.
  - right. vm_compute; reflexivity.
Defined.

Lemma accept_gzip_witness :
  ascii_only "deflate, gzip;q=0.5" = true
  /\ (StaticFile.ACCEPT_GZIP_RE_search "deflate, gzip;q=0.5" = true
      <-> exists a b, "deflate, gzip;q=0.5" = a +:+ "gzip" +:+ b
                      /\ word_before false a = false /\ word_after b = false).
Proof.
  split; [reflexivity|].
  apply (accept_gzip_is_a_whole_word "deflate, gzip;q=0.5"). reflexivity.
Defined.

Lemma body_failure_witness :
  WhiteNoise.call Py3 nothing_left styles_catalogue plain_get
  = Ok (WhiteNoise.Served unopened_answer)
  /\ ((app_iter unopened_answer = Ok Empty
       /\ (status unopened_answer = "405 Method Not Allowed"
           \/ status unopened_answer = "304 Not Modified"
           \/ status unopened_answer = "301 Moved Permanently"
           \/ (status unopened_answer = "200 OK"
               /\ plain_get !! "REQUEST_METHOD" = Some "HEAD")))
      \/ (status unopened_answer = "200 OK"
          /\ plain_get !! "REQUEST_METHOD" = Some "GET"
          /\ exists url sf p,
               plain_get !! "PATH_INFO" = Some url
               /\ WhiteNoise.files styles_catalogue !! url = Some (WhiteNoise.File sf)
               /\ StaticFile.get_path_and_headers sf plain_get
                  = (p, Some (response_headers unopened_answer))
               /\ app_iter unopened_answer
                  = StaticFile.open_body nothing_left plain_get p
               /\ forall err, app_iter unopened_answer = Raise err ->
                    err = IOError p /\ os_open nothing_left p = false)).
Proof.
  split; [vm_compute; reflexivity|].
  apply (body_is_empty_or_the_selected_file Py3 nothing_left styles_catalogue
           plain_get unopened_answer).
  vm_compute; reflexivity.
Defined.

Lemma styles_catalogue_built url e :
  WhiteNoise.files styles_catalogue !! url = Some e -> built_by_init Fixture.styles e.
Proof.
  apply (built_from_empty Fixture.styles empty_catalogue "static" None false
           styles_catalogue); [reflexivity|vm_compute; reflexivity].
Qed.

Lemma call_raises_witness :
  WhiteNoise.call Py3 Fixture.styles styles_catalogue garbage_get = Raise TypeError
  /\ ((TypeError = KeyError "PATH_INFO" /\ garbage_get !! "PATH_INFO" = None)
      \/ (TypeError = KeyError "REQUEST_METHOD"
          /\ garbage_get !! "REQUEST_METHOD" = None)
      \/ (TypeError = KeyError "wsgi.url_scheme"
          /\ garbage_get !! "wsgi.url_scheme" = None
          /\ exists host, garbage_get !! "HTTP_HOST" = Some host
                          /\ host <> EmptyString)
      \/ (TypeError = TypeError /\ Py3 = Py3
          /\ exists ims, garbage_get !! "HTTP_IF_MODIFIED_SINCE" = Some ims
                         /\ parsedate ims = None)).
Proof.
  split; [vm_compute; reflexivity|].
  apply (call_raises_only Py3 Fixture.styles styles_catalogue garbage_get TypeError).
  - apply styles_catalogue_built.
  - vm_compute; reflexivity.
Defined.

(** A redirect asked for with a [Host] but without a URL scheme, and the
    same with both. *)
Example redirect_location_samples :
  WhiteNoise.call Py3 Fixture.docs_only docs_only_catalogue
    (Fixture.request "GET" "/docs" [("HTTP_HOST", "example.org")])
  = Raise (KeyError "wsgi.url_scheme")
  /\ WhiteNoise.call Py3 Fixture.docs_only docs_only_catalogue
       (Fixture.request "GET" "/docs"
          [("HTTP_HOST", "example.org"); ("wsgi.url_scheme", "https")])
     = Ok (WhiteNoise.Served
             (Response "301 Moved Permanently"
                [("Location", "https://example.org/docs/")] (Ok Empty)))
  /\ WhiteNoise.call Py3 Fixture.docs_only docs_only_catalogue
       (Fixture.request "HEAD" "/docs" [("wsgi.url_scheme", "https")])
     = Ok (WhiteNoise.Served
             (Response "301 Moved Permanently" [("Location", "/docs/")] (Ok Empty))).
Proof. split_and!; vm_compute; reflexivity. Qed.

Lemma conditional_check_witness :
  StaticFile.file_not_modified Py3 foo_css later_get = Ok true
  <-> exists ims,
        later_get !! "HTTP_IF_MODIFIED_SINCE" = Some ims
        /\ (Headers.get (StaticFile.headers foo_css) "Last-Modified" = Some ims
            \/ exists t, parsedate ims = Some t
                 /\ seq_lt (tm_date (StaticFile.mtime_tuple foo_css)) (tm_date t) = true).
Proof.
  apply (conditional_check_exactly Py3 Fixture.styles "static/foo.css" false
           (WhiteNoise.CONFIG Fixture.guess_type) foo_css later_get).
  - apply ref_time_shape.
  - vm_compute; reflexivity.
Defined.

Example one_second_later_is_304 :
  StaticFile.file_not_modified Py3 foo_css later_get = Ok true.
Proof. vm_compute; reflexivity. Qed.

Lemma without_sibling_witness :
  StaticFile.get_path_and_headers root_index gzip_get_index
  = ("site/index.html", Some (StaticFile.headers root_index))
  /\ Headers.get (StaticFile.headers root_index) "Vary" = None.
Proof.
  apply (without_sibling_always_plain Fixture.docs_only "site/index.html" false
           (WhiteNoise.CONFIG Fixture.guess_type) root_index gzip_get_index);
    vm_compute; reflexivity.
Defined.

Lemma unconditional_request_witness :
  exists p hs st,
    (p = "static/foo.css" \/ p = "static/foo.css" +:+ ".gz")
    /\ os_stat Fixture.styles p = Some st
    /\ Headers.get hs "Content-Length" = Some (Py.str (st_size st))
    /\ WhiteNoise.call Py3 Fixture.styles styles_catalogue gzip_head
       = Ok (WhiteNoise.Served
               (Response "200 OK" hs
                  (if String.eqb "HEAD" "HEAD" then Ok Empty
                   else StaticFile.open_body Fixture.styles gzip_head p))).
Proof.
  apply (unconditional_request_reports_size Py3 Fixture.styles styles_catalogue
           gzip_head "/foo.css" "static/foo.css" false
           (WhiteNoise.CONFIG Fixture.guess_type) foo_css "HEAD").
  - vm_compute; reflexivity.
  - vm_compute; reflexivity.
  - vm_compute; reflexivity.
  - vm_compute; reflexivity.
  - right; reflexivity.
  - vm_compute; reflexivity.
Defined.

Lemma stat_answered_witness :
  build Fixture.styles "static" = Ok styles_catalogue
  /\ discovered Fixture.styles "static" false "static/foo.css"
  /\ is_Some (os_stat Fixture.styles "static/foo.css")
  /\ (os_path_isfile Fixture.styles ("static/foo.css" +:+ ".gz") = true ->
      is_Some (os_stat Fixture.styles ("static/foo.css" +:+ ".gz"))).
Proof.
  assert (discovered Fixture.styles "static" false "static/foo.css") as Hfound.
  { exists "static", [], ["foo.css"; "foo.css.gz"], "foo.css".
    split_and!; [apply list_elem_of_here|apply list_elem_of_here|reflexivity]. }
  split; [vm_compute; reflexivity|]. split; [exact Hfound|].
  apply (add_files_returns_only_if_stat_answered Fixture.styles empty_catalogue
           "static" None false styles_catalogue "static/foo.css").
  - vm_compute; reflexivity.
  - exact Hfound.
Defined.

Lemma add_files_only_adds_witness :
  WhiteNoise.add_files Fixture.docs_only styles_catalogue "site" None false
  = Ok (expect empty_catalogue
          (WhiteNoise.add_files Fixture.docs_only styles_catalogue "site" None false))
  /\ dom (WhiteNoise.files styles_catalogue)
     ⊆ dom (WhiteNoise.files
              (expect empty_catalogue
                 (WhiteNoise.add_files Fixture.docs_only styles_catalogue "site"
                    None false)))
  /\ WhiteNoise.config
       (expect empty_catalogue
          (WhiteNoise.add_files Fixture.docs_only styles_catalogue "site" None false))
     = WhiteNoise.config styles_catalogue
  /\ WhiteNoise.application
       (expect empty_catalogue
          (WhiteNoise.add_files Fixture.docs_only styles_catalogue "site" None false))
     = WhiteNoise.application styles_catalogue
  /\ WhiteNoise.is_immutable_file
       (expect empty_catalogue
          (WhiteNoise.add_files Fixture.docs_only styles_catalogue "site" None false))
     = WhiteNoise.is_immutable_file styles_catalogue.
Proof.
  split; [vm_compute; reflexivity|].
  apply (add_files_only_adds Fixture.docs_only styles_catalogue "site" None false).
  vm_compute; reflexivity.
Defined.

Lemma discovered_files_witness :
  exists file_path u,
    discovered Fixture.styles "static" false file_path
    /\ StaticFile.init Fixture.styles file_path
         (WhiteNoise.is_immutable_file empty_catalogue file_path u)
         (WhiteNoise.config empty_catalogue)
       = Ok foo_css
    /\ StaticFile.path foo_css = file_path.
Proof.
  apply (catalogue_holds_only_discovered_files Fixture.styles empty_catalogue
           "static" None false styles_catalogue "/foo.css" foo_css).
  - reflexivity.
  - vm_compute; reflexivity.
  - vm_compute; reflexivity.
Defined.

Lemma redirects_witness :
  WhiteNoise.files docs_catalogue !! "/docs/"
  = Some (WhiteNoise.Moved {| Redirect.path := "/docs/_" |})
  /\ is_Some (WhiteNoise.files docs_catalogue
              !! Redirect.path {| Redirect.path := "/docs/_" |}).
Proof.
  split; [vm_compute; reflexivity|].
  apply (redirects_point_into_the_catalogue Fixture.docs empty_catalogue
           "site" None false docs_catalogue "/docs/" {| Redirect.path := "/docs/_" |}).
  - intros k r0 Hk. vm_compute in Hk. discriminate Hk.
  - vm_compute; reflexivity.
  - vm_compute; reflexivity.
Defined.

Lemma yield_file_witness :
  exists blocks,
    YieldFile.drain 12 (YieldFile.Created hello_file)
    = (blocks,
       YieldFile.Finished {| YieldFile.unread := EmptyString; YieldFile.closed := true |})
    /\ foldr String.append EmptyString blocks = YieldFile.unread hello_file
    /\ Forall (fun b => b <> EmptyString
                        /\ (String.length b <= YieldFile.block_size)%nat) blocks
    /\ forall i b, blocks !! i = Some b ->
         String.length b = YieldFile.block_size \/ S i = length blocks.
Proof.
  apply (yield_file_streams_the_whole_file 12 hello_file).
  vm_compute. lia.
Defined.

Lemma add_file_index_witness :
  (exists f, docs_index_step !! ("/docs" +:+ "/" +:+ "index.html")
             = Some (WhiteNoise.File f)
             /\ StaticFile.path f = "site/docs/index.html")
  /\ (exists f, docs_index_step !! ("/docs" +:+ "/") = Some (WhiteNoise.File f)
                /\ StaticFile.path f = "site/docs/index.html")
  /\ docs_index_step !! "/docs"
     = Some (WhiteNoise.Moved {| Redirect.path := "/docs" +:+ "/" |}).
Proof.
  apply (add_file_index Fixture.docs_only empty_catalogue "site" "/" "site/docs"
           "index.html" ∅ docs_index_step "/docs").
  - vm_compute; discriminate.
  - vm_compute; reflexivity.
  - vm_compute; reflexivity.
Defined.
